(** * Xapers: the schema layer between bibliographic metadata and Xapian terms

    A shallow embedding of [xapers/database.py] and [xapers/documents.py]
    (Python 2).  Python values that may be [None] are [option]s, Python
    exceptions are the [Raise] outcome of a computation, and methods that
    mutate [self] are computations of a state-and-exception monad in which,
    as in Python, the mutations made before an exception stay in place.

    The Xapian engine is an external collaborator.  Module [Xapian] models the
    part of its interface the Python code calls: a document is a set of terms
    iterated in byte order, with a data blob; a database maps document ids to
    documents and remembers the highest id ever used. *)

From Stdlib Require Import String Ascii List Bool NArith ZArith Lia DecimalString
  Sorted.
Import ListNotations.
Open Scope string_scope.

(** ** Python semantics used by the sources *)

Inductive exn : Type :=
| TypeError               (* Python built-in *)
| ValueError              (* Python built-in *)
| OverflowError           (* Python built-in *)
| AttributeError (attribute : string)  (* Python built-in *)
| InvalidArgumentError    (* xapian.InvalidArgumentError *)
| QueryParserError        (* xapian.QueryParserError *)
| ParserError             (* whatever parsers.pdf raises *)
| IllegalImportPath       (* documents.IllegalImportPath *)
| ImportPathExists (docid : N).  (* documents.ImportPathExists(docid) *)

Inductive res (A : Type) : Type :=
| Ok (a : A)
| Raise (e : exn).
Arguments Ok {A} a.
Arguments Raise {A} e.

Definition res_bind {A B} (r : res A) (f : A -> res B) : res B :=
  match r with Ok a => f a | Raise e => Raise e end.

(** A method of an object with state [S]: it returns or raises, and leaves a
    state behind in both cases. *)
Definition M (S A : Type) : Type := S -> res A * S.

Definition ret {S A} (a : A) : M S A := fun s => (Ok a, s).
Definition raise {S A} (e : exn) : M S A := fun s => (Raise e, s).
Definition bind {S A B} (m : M S A) (f : A -> M S B) : M S B :=
  fun s => match m s with
           | (Ok a, s') => f a s'
           | (Raise e, s') => (Raise e, s')
           end.
(** A read-only method. *)
Definition reads {S A} (f : S -> res A) : M S A := fun s => (f s, s).
(** Running a method of a component of the state. *)
Definition lift_fst {S T A} (m : M S A) : M (S * T) A :=
  fun st => let '(r, s') := m (fst st) in (r, (s', snd st)).

Declare Scope py_scope.
Delimit Scope py_scope with py.
Notation "x <- m ;; k" := (bind m (fun x => k))
  (at level 61, m at next level, right associativity) : py_scope.
Notation "m ;; k" := (bind m (fun _ => k))
  (at level 61, right associativity) : py_scope.
Notation "x <-! r ;; k" := (res_bind r (fun x => k))
  (at level 61, r at next level, right associativity) : py_scope.
Open Scope py_scope.

(** [for x in l: body(x)] *)
Fixpoint for_each {S A} (l : list A) (body : A -> M S unit) : M S unit :=
  match l with
  | [] => ret tt
  | x :: l' => body x ;; for_each l' body
  end.

(** [s.find(sub)]: the lowest index at which [sub] occurs in [s], or -1. *)
Fixpoint find_from (s sub : string) (i : Z) : Z :=
  if String.prefix sub s then i
  else match s with
       | EmptyString => (-1)%Z
       | String _ s' => find_from s' sub (i + 1)
       end.
Definition find (s sub : string) : Z := find_from s sub 0.

(** [s[n:]] *)
Fixpoint slice_from (n : nat) (s : string) : string :=
  match n, s with
  | O, _ => s
  | S n', String _ s' => slice_from n' s'
  | S _, EmptyString => EmptyString
  end.

(** [s[0:n]] *)
Definition slice_to (n : nat) (s : string) : string := String.substring 0 n s.

(** [s.translate(None, c)]: delete every occurrence of the character. *)
Fixpoint delete_char (c : ascii) (s : string) : string :=
  match s with
  | EmptyString => EmptyString
  | String a s' => if Ascii.eqb a c then delete_char c s'
                   else String a (delete_char c s')
  end.

(** [s.upper()] on a byte string. *)
Definition upper_ascii (c : ascii) : ascii :=
  let n := N_of_ascii c in
  if ((97 <=? n) && (n <=? 122))%N then ascii_of_N (n - 32) else c.
Fixpoint upper (s : string) : string :=
  match s with
  | EmptyString => EmptyString
  | String c s' => String (upper_ascii c) (upper s')
  end.

Definition lower_ascii (c : ascii) : ascii :=
  let n := N_of_ascii c in
  if ((65 <=? n) && (n <=? 90))%N then ascii_of_N (n + 32) else c.
Fixpoint lower (s : string) : string :=
  match s with
  | EmptyString => EmptyString
  | String c s' => String (lower_ascii c) (lower s')
  end.

(** [str(n)] for a non-negative integer. *)
Definition str_of_N (n : N) : string := NilZero.string_of_uint (N.to_uint n).

(** ['%s' % v] where [v] is a string or [None]. *)
Definition format_s (v : option string) : string :=
  match v with Some s => s | None => "None" end.

(** Truth value of a string. *)
Definition truthy (s : string) : bool := negb (String.eqb s "").

(** [a, b = v] where [v] is a string or [None]: a string is a sequence of its
    characters, so the assignment succeeds exactly on a string of length 2. *)
Definition unpack2 (v : option string) : res (string * string) :=
  match v with
  | None => Raise TypeError
  | Some (String a (String b EmptyString)) =>
      Ok (String a EmptyString, String b EmptyString)
  | Some _ => Raise ValueError
  end.

(** [d[k] = v] on a dict kept as an association list. *)
Fixpoint dict_set {V} (k : string) (v : V) (d : list (string * V))
  : list (string * V) :=
  match d with
  | [] => [(k, v)]
  | (k', v') :: d' => if String.eqb k' k then (k, v) :: d'
                      else (k', v') :: dict_set k v d'
  end.
Fixpoint dict_get {V} (k : string) (d : list (string * V)) : option V :=
  match d with
  | [] => None
  | (k', v) :: d' => if String.eqb k' k then Some v else dict_get k d'
  end.
Definition dict_has {V} (k : string) (d : list (string * V)) : bool :=
  match dict_get k d with Some _ => true | None => false end.

(** ** The Xapian engine *)

Module Xapian.

(** A document: its terms, without repetition and in byte order, its data
    blob, and the id it has in the database it was read from (0 for a
    document built in memory).  Within-document frequencies and positions
    are left out. *)
Record Document : Type := mkDocument {
  termlist : list string;
  data : string;
  docid : N
}.

Definition Document_new : Document :=
  {| termlist := []; data := ""; docid := 0 |}.

Fixpoint insert_term (t : string) (l : list string) : list string :=
  match l with
  | [] => [t]
  | x :: r => match String.compare t x with
              | Lt => t :: l
              | Eq => l
              | Gt => x :: insert_term t r
              end
  end.

Definition has_term (t : string) (l : list string) : bool :=
  existsb (String.eqb t) l.

Definition with_termlist (d : Document) (l : list string) : Document :=
  {| termlist := l; data := data d; docid := docid d |}.

(** [Document::add_term]: an empty term is refused. *)
Definition add_term (t : string) (d : Document) : res Document :=
  if String.eqb t "" then Raise InvalidArgumentError
  else Ok (with_termlist d (insert_term t (termlist d))).

(** [Document::remove_term]: a term the document does not have is refused. *)
Definition remove_term (t : string) (d : Document) : res Document :=
  if has_term t (termlist d)
  then Ok (with_termlist d
             (filter (fun x => negb (String.eqb x t)) (termlist d)))
  else Raise InvalidArgumentError.

Definition set_data (text : string) (d : Document) : Document :=
  {| termlist := termlist d; data := text; docid := docid d |}.
Definition get_data (d : Document) : string := data d.
Definition get_docid (d : Document) : N := docid d.

(** The term generator with its stemmer: how a text is cut into lower-cased
    words and which words have a stem are the engine's business. *)
Record TermGenerator : Type := mkTermGenerator {
  words : string -> list string;
  stem : string -> option string
}.

(** [TermGenerator::index_text(text, 1, prefix)]: every word is added under
    the prefix, and its stem under "Z" followed by the prefix.  Terms are
    only ever added. *)
Definition word_terms (tg : TermGenerator) (prefix w : string) : list string :=
  (prefix ++ w) ::
  match stem tg w with
  | Some st => ["Z" ++ prefix ++ st]
  | None => []
  end.
Definition index_terms (tg : TermGenerator) (text prefix : string)
  : list string :=
  flat_map (word_terms tg prefix) (words tg text).
Definition index_text (tg : TermGenerator) (text prefix : string)
                      (d : Document) : Document :=
  with_termlist d
    (fold_left (fun l t => insert_term t l) (index_terms tg text prefix)
               (termlist d)).

(** Queries.  What the parser makes of a query string is the engine's
    business; every query it builds is evaluated as a boolean filter. *)
Inductive Query : Type :=
| MatchAll
| Term (t : string)
| And (q1 q2 : Query)
| Or (q1 q2 : Query)
| AndNot (q1 q2 : Query).

Record QueryParser : Type := mkQueryParser {
  parse_query : string -> res Query
}.

Fixpoint matches (q : Query) (d : Document) : bool :=
  match q with
  | MatchAll => true
  | Term t => has_term t (termlist d)
  | And q1 q2 => matches q1 d && matches q2 d
  | Or q1 q2 => matches q1 d || matches q2 d
  | AndNot q1 q2 => matches q1 d && negb (matches q2 d)
  end.

(** A database: its documents in the order of their ids, and the highest
    id ever used. *)
Record Database : Type := mkDatabase {
  documents : list Document;
  lastdocid : N;
  max_term_length : nat;   (* the longest term the backend stores *)
  max_docid : N            (* the largest value of Xapian::docid *)
}.

Definition get_lastdocid (db : Database) : N := lastdocid db.
Definition get_doccount (db : Database) : nat := List.length (documents db).

Fixpoint put_document (d : Document) (l : list Document) : list Document :=
  match l with
  | [] => [d]
  | x :: r => match N.compare (docid d) (docid x) with
              | Lt => d :: l
              | Eq => d :: r
              | Gt => x :: put_document d r
              end
  end.

(** The terms of a document are short enough for the backend. *)
Definition terms_fit (db : Database) (d : Document) : bool :=
  forallb (fun t => Nat.leb (String.length t) (max_term_length db))
          (termlist d).

(** [WritableDatabase::replace_document(did, document)]: insert if the id
    is unused, else replace.  An id that is no [Xapian::docid] does not get
    through the binding, the id 0 is refused, and so is a document with a
    term longer than the backend stores. *)
Definition replace_document (did : N) (d : Document) (db : Database)
  : res Database :=
  if (max_docid db <? did)%N then Raise OverflowError
  else if (did =? 0)%N then Raise InvalidArgumentError
  else if negb (terms_fit db d) then Raise InvalidArgumentError
  else Ok {| documents :=
               put_document {| termlist := termlist d; data := data d;
                               docid := did |} (documents db);
             lastdocid := N.max (lastdocid db) did;
             max_term_length := max_term_length db;
             max_docid := max_docid db |}.

(** [WritableDatabase::delete_document(did)]: the id is not given back. *)
Definition delete_document (did : N) (db : Database) : Database :=
  {| documents := filter (fun x => negb (docid x =? did)%N) (documents db);
     lastdocid := lastdocid db;
     max_term_length := max_term_length db;
     max_docid := max_docid db |}.

(** A match set: the hits of one page and the estimated number of matches. *)
Record MSet : Type := mkMSet {
  hits : list Document;
  matches_estimated : N
}.

(** [Enquire::get_mset(first, maxitems)].  The ranking of the engine is
    left out: hits come in the order of their ids. *)
Definition get_mset (db : Database) (q : Query) (first maxitems : nat)
  : MSet :=
  let all := filter (matches q) (documents db) in
  {| hits := firstn maxitems (skipn first all);
     matches_estimated := N.of_nat (List.length all) |}.

End Xapian.

(** ** database.py: the prefix tables *)

Definition BOOLEAN_PREFIX_INTERNAL : list (string * string) :=
  [ ("url", "U"); ("file", "P"); ("type", "T") ].

Definition BOOLEAN_PREFIX_EXTERNAL : list (string * string) :=
  [ ("id", "Q"); ("tag", "K"); ("source", "XSOURCE:");
    ("fulltitle", "XTITLE:"); ("fullauthors", "XAUTHORS:"); ("year", "Y") ].

Definition PROBABILISTIC_PREFIX : list (string * string) :=
  [ ("title", "S"); ("subject", "S"); ("author", "A") ].

(** [Database._find_prefix]: falls off the end, returning [None], for a name
    in none of the tables. *)
Definition _find_prefix (name : string) : option string :=
  if dict_has name BOOLEAN_PREFIX_INTERNAL
  then dict_get name BOOLEAN_PREFIX_INTERNAL
  else if dict_has name BOOLEAN_PREFIX_EXTERNAL
  then dict_get name BOOLEAN_PREFIX_EXTERNAL
  else if dict_has name PROBABILISTIC_PREFIX
  then dict_get name PROBABILISTIC_PREFIX
  else None.

(** The field names of the three tables. *)
Definition field_names : list string :=
  map fst BOOLEAN_PREFIX_INTERNAL ++ map fst BOOLEAN_PREFIX_EXTERNAL
  ++ map fst PROBABILISTIC_PREFIX.
Definition recognized (name : string) : Prop := In name field_names.

(** [Database._make_source_prefix] *)
Definition _make_source_prefix (source : string) : string :=
  "X" ++ upper source ++ ":".

(** ** database.py: the database *)

(** [writable] is the argument of [Database.__init__]: [xapian_db] is a
    [xapian.WritableDatabase] when it is set and a [xapian.Database], which
    has no method that writes, when it is not (the default). *)
Record Database : Type := mkDatabase {
  root : string;                       (* os.path.abspath(root) *)
  writable : bool;
  xapian_db : Xapian.Database;
  term_gen : Xapian.TermGenerator;
  query_parser : Xapian.QueryParser
}.

Definition with_xapian_db (db : Database) (x : Xapian.Database) : Database :=
  {| root := root db; writable := writable db; xapian_db := x;
     term_gen := term_gen db; query_parser := query_parser db |}.

(** [Database._generate_docid] *)
Definition _generate_docid (db : Database) : N :=
  (Xapian.get_lastdocid (xapian_db db) + 1)%N.

(** [Database._basename_for_path] *)
Definition _basename_for_path (db : Database) (path : string) : option string :=
  if (find path "/" =? 0)%Z then
    if (find path (root db) =? 0)%Z then
      let index := String.length (root db) in
      Some (slice_from index path)
    else None
  else Some path.

(** ** documents.py: the document *)

Record Document : Type := mkDocument {
  doc : Xapian.Document;
  docid : N;
  path : option (list string)   (* set only when wrapping an engine document *)
}.

Definition with_doc (self : Document) (d : Xapian.Document) : Document :=
  {| doc := d; docid := docid self; path := path self |}.

(** [Document._add_term] *)
Definition _add_term (prefix : option string) (value : string)
  : M Document unit :=
  fun self =>
    let term := format_s prefix ++ value in
    match Xapian.add_term term (doc self) with
    | Ok d => (Ok tt, with_doc self d)
    | Raise e => (Raise e, self)
    end.

(** [Document._remove_term] *)
Definition _remove_term (prefix : option string) (value : string)
  : M Document unit :=
  fun self =>
    let term := format_s prefix ++ value in
    match Xapian.remove_term term (doc self) with
    | Ok d => (Ok tt, with_doc self d)
    | Raise e => (Raise e, self)
    end.

(** [Document._gen_terms] *)
Definition _gen_terms (db : Database) (prefix : option string) (text : string)
  : M Document unit :=
  fun self =>
    let term_gen := term_gen db in
    let d := doc self in
    let d := match prefix with
             | Some p => if truthy p then Xapian.index_text term_gen text p d
                         else d
             | None => d
             end in
    (Ok tt, with_doc self (Xapian.index_text term_gen text "" d)).

(** [Document._get_terms]: [term.term.find(None)] is a type error, met at
    the first term of the document. *)
Definition _get_terms (prefix : option string) (self : Document)
  : res (list string) :=
  match prefix with
  | None =>
      match Xapian.termlist (doc self) with
      | [] => Ok []
      | _ :: _ => Raise TypeError
      end
  | Some prefix =>
      Ok (map (slice_from (String.length prefix))
            (filter (fun term => (find term prefix =? 0)%Z)
                    (Xapian.termlist (doc self))))
  end.

(** [Document.set_data] *)
Definition set_data (text : string) : M Document unit :=
  fun self => (Ok tt, with_doc self (Xapian.set_data text (doc self))).

(** [Document.__init__] *)
Definition Document_init (db : Database) (d : option Xapian.Document)
  : res Document :=
  match d with
  | Some d =>
      let self := {| doc := d; docid := Xapian.get_docid d; path := None |} in
      p <-! _get_terms (_find_prefix "file") self ;;
      Ok {| doc := d; docid := Xapian.get_docid d; path := Some p |}
  | None =>
      let self := {| doc := Xapian.Document_new; docid := _generate_docid db;
                     path := None |} in
      match _add_term (_find_prefix "id") (str_of_N (docid self)) self with
      | (Ok _, self) => Ok self
      | (Raise e, _) => Raise e
      end
  end.

(** [Document.sync]: the one place where a document reaches the database.
    A database that was not opened writable has no [replace_document]. *)
Definition sync (self : Document) (db : Database) : res Database :=
  if writable db then
    x <-! Xapian.replace_document (docid self) (doc self) (xapian_db db) ;;
    Ok (with_xapian_db db x)
  else Raise (AttributeError "replace_document").

(** [Document.get_docid] *)
Definition get_docid (self : Document) : N := docid self.

(** ** database.py: searching *)

(** [Database._search] *)
Definition _search (db : Database) (query_string : string) (limit : Z)
  : res Xapian.MSet :=
  query <-! (if String.eqb query_string "*" then Ok Xapian.MatchAll
             else Xapian.parse_query (query_parser db) query_string) ;;
  if (limit >? 0)%Z
  then Ok (Xapian.get_mset (xapian_db db) query 0 (Z.to_nat limit))
  else Ok (Xapian.get_mset (xapian_db db) query 0
             (Xapian.get_doccount (xapian_db db))).

(** A call [self._search(query_string, **kwargs)]: [_search] is declared as
    [def _search(self, query_string, limit=0)], so with [query_string] given
    by position the only keyword Python accepts is [limit], once. *)
Definition call__search (db : Database) (query_string : string)
                        (kwargs : list (string * Z)) : res Xapian.MSet :=
  match kwargs with
  | [] => _search db query_string 0
  | [(kw, v)] => if String.eqb kw "limit" then _search db query_string v
                 else Raise TypeError
  | _ => Raise TypeError
  end.

(** [Database.count] *)
Definition count (db : Database) (query_string : string) : res N :=
  mset <-! call__search db query_string [("count", 0%Z)] ;;
  Ok (Xapian.matches_estimated mset).

(** [Database._doc_for_term] *)
Definition _doc_for_term (db : Database) (term : string)
  : res (option Document) :=
  let query := Xapian.Term term in
  let mset := Xapian.get_mset (xapian_db db) query 0 2 in
  (* FIXME: need to throw an exception if more than one match found *)
  match Xapian.hits mset with
  | m :: _ => d <-! Document_init db (Some m) ;; Ok (Some d)
  | [] => Ok None
  end.

(** [Database.doc_for_docid]: [str + None] is a type error. *)
Definition doc_for_docid (db : Database) (docid : string)
  : res (option Document) :=
  match _find_prefix "id" with
  | Some p => _doc_for_term db (p ++ docid)
  | None => Raise TypeError
  end.

(** [Database.doc_for_path] *)
Definition doc_for_path (db : Database) (path : string)
  : res (option Document) :=
  match _find_prefix "file" with
  | Some p => _doc_for_term db (p ++ path)
  | None => Raise TypeError
  end.

(** ** documents.py: sources *)

(** [Document._add_source] *)
Definition _add_source (source sid : string) : M Document unit :=
  let prefix := _find_prefix "source" in
  _add_term prefix source ;;
  let prefix := _make_source_prefix source in
  _add_term (Some prefix) sid.

(** [Document.get_source_id] *)
Definition get_source_id (source : string) (self : Document)
  : res (option string) :=
  let prefix := _make_source_prefix source in
  sid <-! _get_terms (Some prefix) self ;;
  match sid with
  | s :: _ => Ok (Some s)
  | [] => Ok None
  end.

(** The loop of [Document.get_sources], which stops at an empty name. *)
Fixpoint get_sources_loop (self : Document) (l : list string)
    (sources : list (string * option string))
  : res (list (string * option string)) :=
  match l with
  | [] => Ok sources
  | source :: l' =>
      if negb (truthy source) then Ok sources
      else v <-! get_source_id source self ;;
           get_sources_loop self l' (dict_set source v sources)
  end.

(** [Document.get_sources] *)
Definition get_sources (self : Document)
  : res (list (string * option string)) :=
  let prefix := _find_prefix "source" in
  l <-! _get_terms prefix self ;;
  get_sources_loop self l [].

(** [Document.remove_source] *)
Definition remove_source (source : string) : M Document unit :=
  let prefix := _make_source_prefix source in
  l <- reads (_get_terms (Some prefix)) ;;
  for_each l (fun sid => _remove_term (Some prefix) sid) ;;
  _remove_term (_find_prefix "source") source.

(** ** documents.py: single value fields *)

(** [Document.set_url] *)
Definition set_url (url : string) : M Document unit :=
  let prefix := _find_prefix "url" in
  l <- reads (_get_terms prefix) ;;
  for_each l (fun term => _remove_term prefix term) ;;
  _add_term prefix url.

(** [Document.get_url] *)
Definition get_url (self : Document) : res string :=
  let prefix := _find_prefix "url" in
  url <-! _get_terms prefix self ;;
  match url with
  | u :: _ => Ok u
  | [] => Ok ""
  end.

(** [Document.set_title] *)
Definition set_title (db : Database) (title : string) : M Document unit :=
  let pt := _find_prefix "title" in
  let pf := _find_prefix "fulltitle" in
  l <- reads (_get_terms pt) ;;
  for_each l (fun term => _remove_term pt term) ;;
  l <- reads (_get_terms (Some "ZS")) ;;
  for_each l (fun term => _remove_term (Some "ZS") term) ;;
  l <- reads (_get_terms pf) ;;
  for_each l (fun term => _remove_term pf term) ;;
  _gen_terms db pt title ;;
  _add_term pf title.

(** [Document.get_title] *)
Definition get_title (self : Document) : res string :=
  title <-! _get_terms (_find_prefix "fulltitle") self ;;
  match title with
  | t :: _ => Ok t
  | [] => Ok ""
  end.

(** [Document.set_authors] *)
Definition set_authors (db : Database) (authors : string) : M Document unit :=
  let pa := _find_prefix "author" in
  let pf := _find_prefix "fullauthors" in
  l <- reads (_get_terms pa) ;;
  for_each l (fun term => _remove_term pa term) ;;
  l <- reads (_get_terms (Some "ZA")) ;;
  for_each l (fun term => _remove_term (Some "ZA") term) ;;
  l <- reads (_get_terms pf) ;;
  for_each l (fun term => _remove_term pf term) ;;
  _gen_terms db pa authors ;;
  _add_term pf authors.

(** [Document.get_authors] *)
Definition get_authors (self : Document) : res string :=
  authors <-! _get_terms (_find_prefix "fullauthors") self ;;
  match authors with
  | a :: _ => Ok a
  | [] => Ok ""
  end.

(** [Document.set_year] *)
Definition set_year (year : string) : M Document unit :=
  let prefix := _find_prefix "year" in
  l <- reads (_get_terms prefix) ;;
  for_each l (fun term => _remove_term prefix term) ;;
  _add_term prefix year.

(** [Document.get_year] *)
Definition get_year (self : Document) : res string :=
  let prefix := _find_prefix "year" in
  year <-! _get_terms prefix self ;;
  match year with
  | y :: _ => Ok y
  | [] => Ok ""
  end.

(** ** documents.py: files *)

(** A computation that only returns or raises. *)
Definition try {S A} (r : res A) : M S A := fun s => (r, s).

Section Files.

(** [parsers.pdf.parse_file], from a module these two files import. *)
Variable parse_file : string -> res string.

(** The document, and the paths handed to the parser so far. *)
Definition FileState : Type := (Document * list string)%type.

Definition call_parse_file (full : string) : M FileState string :=
  fun st => (parse_file full, (fst st, (snd st ++ [full])%list)).

(** [Document.add_path] *)
Definition add_path (db : Database) (path : string) : M Document unit :=
  bf <- try (unpack2 (_basename_for_path db path)) ;;
  let '(base, full) := bf in
  let prefix := _find_prefix "file" in
  _add_term prefix base.

(** [Document._index_file] *)
Definition _index_file (db : Database) (path : string) : M FileState string :=
  bf <- try (unpack2 (_basename_for_path db path)) ;;
  let '(base, full) := bf in
  text <- call_parse_file full ;;
  lift_fst (_gen_terms db None text) ;;
  let summary := delete_char "010"%char (slice_to 997 text) ++ "..." in
  ret summary.

(** [Document.add_file] *)
Definition add_file (db : Database) (path : string) : M FileState unit :=
  bf <- try (unpack2 (_basename_for_path db path)) ;;
  let '(base, full) := bf in
  (if negb (truthy base) then raise IllegalImportPath else ret tt) ;;
  doc <- try (doc_for_path db base) ;;
  match doc with
  | Some doc => raise (ImportPathExists (get_docid doc))
  | None => ret tt
  end ;;
  summary <- _index_file db full ;;
  lift_fst (add_path db path) ;;
  lift_fst (set_data summary).

End Files.

(** ** Sessions *)




(** ** The path resolver as the specification words it *)

Fixpoint strip_prefix (pre s : string) : option string :=
  match pre with
  | EmptyString => Some s
  | String a pre' =>
      match s with
      | EmptyString => None
      | String b s' => if Ascii.eqb a b then strip_prefix pre' s' else None
      end
  end.

(** "If [path] does not start with a path separator, return unchanged.  If
    absolute and root is a prefix of it, return the remainder after stripping
    root.  If absolute and root is not a prefix, return nothing." *)
Definition relative_path (root path : string) : option string :=
  if String.prefix "/" path then strip_prefix root path else Some path.

(** ** Sample data *)

(** A tokenizer for the samples: lower-cased runs of letters and digits. *)
Definition is_alnum (c : ascii) : bool :=
  let n := N_of_ascii c in
  (((48 <=? n) && (n <=? 57)) || ((65 <=? n) && (n <=? 90))
   || ((97 <=? n) && (n <=? 122)))%N.

Fixpoint split_words (s : string) (cur : string) : list string :=
  match s with
  | EmptyString => if truthy cur then [cur] else []
  | String c s' =>
      if is_alnum c then split_words s' (cur ++ String (lower_ascii c) EmptyString)
      else if truthy cur then cur :: split_words s' EmptyString
           else split_words s' EmptyString
  end.

Definition sample_term_gen : Xapian.TermGenerator :=
  {| Xapian.words := fun text => split_words text EmptyString;
     Xapian.stem := fun w => Some w |}.

Definition sample_query_parser : Xapian.QueryParser :=
  {| Xapian.parse_query := fun s => Ok (Xapian.Term s) |}.

Definition sample_db (docs : list Xapian.Document) (last : N) : Database :=
  {| root := "/home/u/papers";
     writable := true;
     xapian_db := {| Xapian.documents := docs; Xapian.lastdocid := last;
                     Xapian.max_term_length := 245;
                     Xapian.max_docid := 4294967295 |};
     term_gen := sample_term_gen;
     query_parser := sample_query_parser |}.

Definition sample_doc (terms : list string) (did : N) : Document :=
  {| doc := {| Xapian.termlist := terms; Xapian.data := ""; Xapian.docid := did |};
     docid := did; path := None |}.

(** "title" and "subject" are the two names of the prefix "S". *)
Definition shares_S (f : string) : Prop := f = "title" \/ f = "subject".

(** Two documents filed under the same path. *)
Definition twice_indexed : Database :=
  sample_db [ {| Xapian.termlist := ["Ppaper.pdf"; "Q1"]; Xapian.data := "";
                 Xapian.docid := 1 |};
              {| Xapian.termlist := ["Ppaper.pdf"; "Q2"]; Xapian.data := "";
                 Xapian.docid := 2 |} ] 2.

(** A database that has "paper.pdf" as document 1. *)
Definition indexed_once : Database :=
  sample_db [ {| Xapian.termlist := ["Ppaper.pdf"; "Q1"]; Xapian.data := "";
                 Xapian.docid := 1 |} ] 1.

(** ** Vocabulary of the statements *)

(** The engine keeps the terms of a document in increasing byte order, so
    without repetition. *)
Definition term_lt (a b : string) : Prop := String.compare a b = Lt.
Definition well_formed (self : Document) : Prop :=
  Sorted.StronglySorted term_lt (Xapian.termlist (doc self)).

(** The same document with other terms. *)
Definition set_terms (self : Document) (l : list string) : Document :=
  with_doc self (Xapian.with_termlist (doc self) l).

(** The words of the term generator are lower-cased. *)
Definition lowercase_words (tg : Xapian.TermGenerator) : Prop :=
  forall text w, In w (Xapian.words tg text) -> lower w = w.

(** The terms one call of [_gen_terms] generates. *)
Definition generated_terms (db : Database) (prefix : option string)
                           (text : string) : list string :=
  (match prefix with
   | Some p => if truthy p then Xapian.index_terms (term_gen db) text p else []
   | None => []
   end ++ Xapian.index_terms (term_gen db) text "")%list.

(** The document has exactly one term under the prefix of the field, and
    it carries the value. *)
Definition holds_exactly (name v : string) (self : Document) : Prop :=
  exists p, _find_prefix name = Some p /\
            filter (String.prefix p) (Xapian.termlist (doc self)) = [p ++ v].

(** The outcome of a method: it returned, and the document then satisfies
    the property. *)
Definition returns_with {A} (m : M Document A) (self : Document)
                        (post : Document -> Prop) : Prop :=
  exists a self', m self = (Ok a, self') /\ post self'.

(** A getter of a single-valued field: the empty string when no term of the
    document starts with the prefix of the field, else the value of the
    first term that does. *)
Definition first_or_empty (name : string) (getter : Document -> res string)
  : Prop :=
  exists p, _find_prefix name = Some p /\
    forall self : Document,
      ((forall t, In t (Xapian.termlist (doc self)) ->
                  String.prefix p t = false) ->
       getter self = Ok "") /\
      (forall l1 v l2,
         Xapian.termlist (doc self) = (l1 ++ (p ++ v)%string :: l2)%list ->
         (forall t, In t l1 -> String.prefix p t = false) ->
         getter self = Ok v).

(** What [sync] needs: a database opened writable, an id that is a
    [Xapian::docid] other than 0, and terms the backend can store. *)
Definition can_sync (db : Database) (self : Document) : bool :=
  writable db
  && (docid self <=? Xapian.max_docid (xapian_db db))%N
  && negb (docid self =? 0)%N
  && Xapian.terms_fit (xapian_db db) (doc self).

(** * The rest of the two files *)

(** ** documents.py: paths and tags *)

(** [Document.get_paths] *)
Definition get_paths (self : Document) : res (list string) :=
  _get_terms (_find_prefix "file") self.

(** [s.lstrip(c)] *)
Fixpoint lstrip (c : ascii) (s : string) : string :=
  match s with
  | EmptyString => EmptyString
  | String a s' => if Ascii.eqb a c then lstrip c s' else s
  end.

(** The loop of [Document.get_fullpaths]. *)
Fixpoint get_fullpaths_loop (db : Database) (paths list_ : list string)
  : res (list string) :=
  match paths with
  | [] => Ok list_
  | path :: paths' =>
      let path := lstrip "/"%char path in
      bf <-! unpack2 (_basename_for_path db path) ;;
      let '(base, full) := bf in
      get_fullpaths_loop db paths' (list_ ++ [full])%list
  end.

(** [Document.get_fullpaths] *)
Definition get_fullpaths (db : Database) (self : Document)
  : res (list string) :=
  paths <-! get_paths self ;;
  get_fullpaths_loop db paths [].

(** [Document._add_tag] *)
Definition _add_tag (tag : string) : M Document unit :=
  let prefix := _find_prefix "tag" in
  _add_term prefix tag.

(** [Document.add_tags] *)
Definition add_tags (tags : list string) : M Document unit :=
  for_each tags (fun tag => _add_tag tag).

(** [Document.get_tags] *)
Definition get_tags (self : Document) : res (list string) :=
  let prefix := _find_prefix "tag" in
  _get_terms prefix self.

(** [Document._remove_tag] *)
Definition _remove_tag (tag : string) : M Document unit :=
  let prefix := _find_prefix "tag" in
  _remove_term prefix tag.

(** [Document.remove_tags] *)
Definition remove_tags (tags : list string) : M Document unit :=
  for_each tags (fun tag => _remove_tag tag).

(** [Document.add_sources]: the dict comes as its items in the order the
    loop meets them. *)
Definition add_sources (sources : list (string * string)) : M Document unit :=
  for_each sources (fun item => _add_source (fst item) (snd item)).

(** ** database.py: the terms of the whole index *)

Module Db.

(** [for term in self.xapian_db]: the distinct terms of all documents, in
    byte order. *)
Definition allterms (x : Xapian.Database) : list string :=
  fold_left (fun acc d =>
               fold_left (fun l t => Xapian.insert_term t l)
                         (Xapian.termlist d) acc)
            (Xapian.documents x) [].

(** [Database._get_terms]: [term.term.find(None)] is a type error, met at
    the first term of the index. *)
Definition _get_terms (db : Database) (prefix : option string)
  : res (list string) :=
  match prefix with
  | Some prefix =>
      Ok (map (slice_from (String.length prefix))
            (filter (fun term => (find term prefix =? 0)%Z)
                    (allterms (xapian_db db))))
  | None =>
      match allterms (xapian_db db) with
      | [] => Ok []
      | _ :: _ => Raise TypeError
      end
  end.

(** [Database.get_terms] *)
Definition get_terms (db : Database) (name : string) : res (list string) :=
  let prefix := _find_prefix name in
  _get_terms db prefix.

End Db.

(** ** database.py: adding and deleting documents *)

(** How a call ends that may also leave the process. *)
Inductive outcome (A : Type) : Type :=
| Returns (a : A)
| Raises (e : exn)
| Exits (code : Z).
Arguments Returns {A} a.
Arguments Raises {A} e.
Arguments Exits {A} code.

(** [fmt % v] for one value that is not a tuple: "%s" takes the value, "%%"
    is a percent sign, and the value must have been taken when the format
    ends. *)
Fixpoint percent (fmt : string) (v : option string) : res string :=
  match fmt with
  | EmptyString =>
      match v with Some _ => Raise TypeError | None => Ok EmptyString end
  | String c fmt' =>
      if Ascii.eqb c "%"%char then
        match fmt' with
        | String k fmt'' =>
            if Ascii.eqb k "s"%char then
              match v with
              | Some s => r <-! percent fmt'' None ;; Ok (s ++ r)
              | None => Raise TypeError
              end
            else if Ascii.eqb k "%"%char then
              r <-! percent fmt'' v ;; Ok (String "%"%char r)
            else Raise ValueError
        | EmptyString => Raise ValueError
        end
      else r <-! percent fmt' v ;; Ok (String c r)
  end.

(** [Database.delete_document]; [resp] is the line [raw_input] reads. *)
Definition delete_document (db : Database) (docid : N) (resp : string)
  : outcome Database :=
  match percent "Are you sure you want to delete documents ?: "
                (Some (str_of_N docid)) with
  | Raise e => Raises e
  | Ok prompt =>
      if negb (String.eqb resp "Y") then Exits 1
      else if writable db
      then Returns (with_xapian_db db
                      (Xapian.delete_document docid (xapian_db db)))
      else Raises (AttributeError "delete_document")
  end.

(** The [data] dict of [Database.add_document], by its recognized keys. *)
Record metadata : Type := mkMetadata {
  md_url : option string;
  md_sources : option (list (string * string));
  md_title : option string;
  md_authors : option string;
  md_year : option string;
  md_tags : option (list string)
}.

Section AddDocument.

(** [parsers.pdf.parse_file] *)
Variable parse_file : string -> res string.

(** The part of [add_document] after the new document is built and indexed:
    [doc._set_url], [doc._set_title], [doc._set_authors], [doc._set_year]
    and [doc._sync] are not methods of [Document]. *)
Definition add_document_fields (data : option metadata) (doc : Document)
  : outcome unit :=
  match data with
  | None => Raises TypeError            (* 'url' in None *)
  | Some data =>
      match md_url data with
      | Some _ => Raises (AttributeError "_set_url")
      | None =>
      match (match md_sources data with
             | Some sources =>
                 for_each sources
                   (fun item => _add_source (fst item) (snd item)) doc
             | None => (Ok tt, doc)
             end) with
      | (Raise e, _) => Raises e
      | (Ok _, doc) =>
      match md_title data with
      | Some _ => Raises (AttributeError "_set_title")
      | None =>
      match md_authors data with
      | Some _ => Raises (AttributeError "_set_authors")
      | None =>
      match md_year data with
      | Some _ => Raises (AttributeError "_set_year")
      | None =>
      match (match md_tags data with
             | Some tags => for_each tags (fun tag => _add_tag tag) doc
             | None => (Ok tt, doc)
             end) with
      | (Raise e, _) => Raises e
      | (Ok _, doc) => Raises (AttributeError "_sync")
      end end end end end end
  end.

(** [Database.add_document]; the messages to stderr are left out. *)
Definition add_document (db : Database) (path : option string)
                        (data : option metadata) : outcome unit :=
  match path with
  | None => Raises TypeError            (* 'P' + None *)
  | Some path =>
      match doc_for_path db path with
      | Raise e => Raises e
      | Ok (Some _) => Exits 1
      | Ok None =>
          match Document_init db None with
          | Raise e => Raises e
          | Ok doc =>
              if truthy path then
                match _index_file parse_file db path (doc, []) with
                | (Raise e, _) => Raises e
                | (Ok _, st) => add_document_fields data (fst st)
                end
              else add_document_fields data doc
          end
      end
  end.

End AddDocument.

(** ** More vocabulary *)

(** The documents of a database are kept in the order of their ids. *)
Definition docs_sorted (db : Database) : Prop :=
  StronglySorted (fun a b => (Xapian.docid a < Xapian.docid b)%N)
                 (Xapian.documents (xapian_db db)).

(** The value a method returned, for use where it is known to return. *)
Definition value_of {A} (default : A) (r : res A) : A :=
  match r with Ok a => a | Raise _ => default end.

(** Two documents have the same terms under a prefix. *)
Definition same_under (p : string) (a b : Document) : Prop :=
  _get_terms (Some p) a = _get_terms (Some p) b.

(** Two documents read the same through the getters of title, authors,
    tags, paths and sources. *)
Definition same_fields (a b : Document) : Prop :=
  get_title a = get_title b /\ get_authors a = get_authors b /\
  get_tags a = get_tags b /\ get_paths a = get_paths b /\
  get_sources a = get_sources b /\
  forall source, get_source_id source a = get_source_id source b.

(** Two documents read the same through the getters of url, year, tags
    and paths. *)
Definition same_plain_fields (a b : Document) : Prop :=
  get_url a = get_url b /\ get_year a = get_year b /\
  get_tags a = get_tags b /\ get_paths a = get_paths b.

(** What [set_title] and [set_authors] do to the searchable copy of the
    field: afterwards the terms under its prefix [pt] are those of the words
    of the new text, and every term that was not under [pt], under the
    prefix [zp] of its stems or under the prefix [pf] of the verbatim copy
    is still there. *)
Definition searchable_copy_replaced (db : Database) (pt zp pf text : string)
                                    (self self' : Document) : Prop :=
  (forall t, In t (Xapian.termlist (doc self')) /\ String.prefix pt t = true
             <-> exists w, In w (Xapian.words (term_gen db) text) /\
                           t = pt ++ w) /\
  (forall t, In t (Xapian.termlist (doc self)) ->
             String.prefix pt t = false -> String.prefix zp t = false ->
             String.prefix pf t = false ->
             In t (Xapian.termlist (doc self'))).

(** * Properties *)

(** The terms of a sample document are in order. *)
Ltac sorted_terms := unfold well_formed; simpl; repeat constructor.

(** ** Strings *)

Lemma find_from_lower_bound (s sub : string) (i : Z) :
  find_from s sub i = (-1)%Z \/ (i <= find_from s sub i)%Z.
Proof.
  revert i; induction s as [|c s IH]; intros i; cbn [find_from].
  - destruct (String.prefix sub ""); [right; lia | left; reflexivity].
  - destruct (String.prefix sub (String c s)); [right; lia|].
    destruct (IH (i + 1)%Z) as [H | H]; [left; exact H | right; lia].
Qed.

(** [s.find(sub) == 0] is the test "[s] starts with [sub]". *)
Lemma find_zero_prefix (s sub : string) :
  (find s sub =? 0)%Z = String.prefix sub s.
Proof.
  unfold find.
  destruct s as [|c s]; cbn [find_from].
  - destruct (String.prefix sub ""); reflexivity.
  - destruct (String.prefix sub (String c s)); [reflexivity|].
    apply Z.eqb_neq.
    destruct (find_from_lower_bound s sub (0 + 1)) as [H | H]; lia.
Qed.

Lemma prefix_app (p v : string) : String.prefix p (p ++ v) = true.
Proof.
  induction p as [|a p IH]; simpl.
  - destruct v; reflexivity.
  - destruct (ascii_dec a a) as [_ | n]; [exact IH | now elim n].
Qed.

Lemma slice_from_app (p v : string) : slice_from (String.length p) (p ++ v) = v.
Proof. induction p as [|a p IH]; simpl; [reflexivity | exact IH]. Qed.

Lemma prefix_slice (p t : string) :
  String.prefix p t = true -> p ++ slice_from (String.length p) t = t.
Proof.
  revert t; induction p as [|a p IH]; intros t H; simpl.
  - reflexivity.
  - destruct t as [|b t]; simpl in H; [discriminate|].
    destruct (ascii_dec a b) as [-> | _]; [|discriminate].
    simpl. now rewrite IH.
Qed.

Lemma prefix_head (a b : ascii) (p t : string) :
  a <> b -> String.prefix (String a p) (String b t) = false.
Proof. intros H; simpl. destruct (ascii_dec a b); [contradiction | reflexivity]. Qed.

Lemma strip_prefix_app (pre rest : string) :
  strip_prefix pre (pre ++ rest) = Some rest.
Proof.
  induction pre as [|a pre IH]; simpl; [reflexivity|].
  now rewrite Ascii.eqb_refl.
Qed.

Lemma strip_prefix_slice (pre s : string) :
  strip_prefix pre s =
  if String.prefix pre s then Some (slice_from (String.length pre) s) else None.
Proof.
  revert s; induction pre as [|a pre IH]; intros s.
  - destruct s; reflexivity.
  - destruct s as [|b s]; [reflexivity|].
    cbn [strip_prefix String.prefix String.length slice_from].
    destruct (ascii_dec a b) as [-> | n].
    + rewrite Ascii.eqb_refl. apply IH.
    + apply Ascii.eqb_neq in n. now rewrite n.
Qed.

(** ** C6: the path resolver *)

Lemma basename_for_path_refines (db : Database) (path : string) :
  _basename_for_path db path = relative_path (root db) path.
Proof.
  unfold _basename_for_path, relative_path.
  rewrite !find_zero_prefix, strip_prefix_slice.
  reflexivity.
Qed.

(** C6.  [_basename_for_path] returns the path unchanged when it does not
    start with "/"; when it starts with "/" and the root is a prefix of it,
    it returns what is left of the path after the root; when it starts with
    "/" and the root is not a prefix of it, it returns [None]. *)
Theorem basename_for_path_cases (db : Database) (path : string) :
  (String.prefix "/" path = false ->
   _basename_for_path db path = Some path) /\
  (String.prefix "/" path = true -> String.prefix (root db) path = true ->
   exists rest, path = root db ++ rest /\
                _basename_for_path db path = Some rest) /\
  (String.prefix "/" path = true -> String.prefix (root db) path = false ->
   _basename_for_path db path = None).
Proof.
  unfold _basename_for_path. rewrite !find_zero_prefix.
  repeat split.
  - intros ->. reflexivity.
  - intros -> Hr. rewrite Hr.
    exists (slice_from (String.length (root db)) path).
    split; [symmetry; now apply prefix_slice | reflexivity].
  - intros -> ->. reflexivity.
Qed.

Lemma basename_for_path_cases_witness :
  _basename_for_path (sample_db [] 0) "doe/2012.pdf" = Some "doe/2012.pdf" /\
  (exists rest, "/home/u/papers/doe/2012.pdf" = "/home/u/papers" ++ rest /\
     _basename_for_path (sample_db [] 0) "/home/u/papers/doe/2012.pdf"
     = Some rest) /\
  _basename_for_path (sample_db [] 0) "/tmp/2012.pdf" = None.
Proof.
  split; [|split].
  - apply (proj1 (basename_for_path_cases (sample_db [] 0) "doe/2012.pdf")).
    reflexivity.
  - apply (proj1 (proj2 (basename_for_path_cases (sample_db [] 0)
                           "/home/u/papers/doe/2012.pdf"))); reflexivity.
  - apply (proj2 (proj2 (basename_for_path_cases (sample_db [] 0)
                           "/tmp/2012.pdf"))); reflexivity.
Defined.

(** ** C1: the prefix tables *)

Lemma find_prefix_recognized (name : string) :
  recognized name ->
  exists p, _find_prefix name = Some p /\ p <> "".
Proof.
  unfold recognized; simpl.
  intros H.
  repeat (destruct H as [<- | H];
          [eexists; split; [reflexivity | discriminate]|]).
  contradiction.
Qed.

Lemma find_prefix_unknown (name : string) :
  ~ recognized name -> _find_prefix name = None.
Proof.
  unfold recognized; simpl. intros H.
  unfold _find_prefix, dict_has, BOOLEAN_PREFIX_INTERNAL,
    BOOLEAN_PREFIX_EXTERNAL, PROBABILISTIC_PREFIX; cbn [dict_get].
  repeat match goal with
         | |- context [String.eqb ?a name] =>
             destruct (String.eqb_spec a name) as [E | _];
             [exfalso; apply H; rewrite <- E; tauto|]
         end.
  reflexivity.
Qed.

(** C1, as stated, fails: "title" and "subject" are distinct recognized
    names with the same prefix "S". *)
Lemma title_subject_same_prefix :
  ~ (forall f1 f2 : string,
       recognized f1 -> recognized f2 -> f1 <> f2 ->
       _find_prefix f1 <> _find_prefix f2).
Proof.
  intros H.
  apply (H "title" "subject").
  - unfold recognized; simpl; tauto.
  - unfold recognized; simpl; tauto.
  - discriminate.
  - reflexivity.
Qed.

(** C1, amended.  Two distinct recognized field names have different
    prefixes unless they are "title" and "subject", which both have "S". *)
Theorem find_prefix_injective_but_S (f1 f2 : string) :
  recognized f1 -> recognized f2 -> f1 <> f2 ->
  ~ (shares_S f1 /\ shares_S f2) ->
  _find_prefix f1 <> _find_prefix f2.
Proof.
  unfold recognized, shares_S; simpl.
  intros H1 H2 Hne Hs.
  repeat (destruct H1 as [<- | H1]; [|]); try contradiction;
    repeat (destruct H2 as [<- | H2]; [|]); try contradiction;
    try (exfalso; apply Hne; reflexivity);
    try (exfalso; apply Hs; tauto);
    vm_compute; discriminate.
Qed.

Lemma find_prefix_injective_but_S_witness :
  _find_prefix "source" <> _find_prefix "fulltitle".
Proof.
  apply (find_prefix_injective_but_S "source" "fulltitle").
  - unfold recognized; simpl; tauto.
  - unfold recognized; simpl; tauto.
  - discriminate.
  - unfold shares_S. intros [[H | H] _]; discriminate.
Defined.

(** ** C7: counting *)

Lemma call__search_limit (db : Database) (q : string) (limit : Z) :
  call__search db q [("limit", limit)] = _search db q limit.
Proof. reflexivity. Qed.

(** C7 fails on every input: [count] passes [count=0] to [_search], whose
    keyword is [limit], so the call raises [TypeError] before any search. *)
Theorem count_raises_TypeError (db : Database) (query_string : string) :
  count db query_string = Raise TypeError.
Proof. reflexivity. Qed.

(** ** C8: lookup by a unique term *)

Lemma Document_init_wraps (db : Database) (m : Xapian.Document) :
  exists p, Document_init db (Some m)
            = Ok {| doc := m; docid := Xapian.get_docid m; path := Some p |}.
Proof. unfold Document_init. simpl. eexists. reflexivity. Qed.

Lemma doc_for_term_first_match (db : Database) (term : string)
      (m : Xapian.Document) (rest : list Xapian.Document) :
  filter (Xapian.matches (Xapian.Term term)) (Xapian.documents (xapian_db db))
  = m :: rest ->
  exists d, _doc_for_term db term = Ok (Some d) /\ doc d = m.
Proof.
  intros H. unfold _doc_for_term, Xapian.get_mset.
  rewrite H. cbn [Xapian.hits skipn firstn].
  destruct (Document_init_wraps db m) as [p ->].
  eexists; split; reflexivity.
Qed.

Lemma doc_for_term_no_match (db : Database) (term : string) :
  filter (Xapian.matches (Xapian.Term term)) (Xapian.documents (xapian_db db))
  = [] ->
  _doc_for_term db term = Ok None.
Proof.
  intros H. unfold _doc_for_term, Xapian.get_mset.
  rewrite H. reflexivity.
Qed.

Lemma doc_for_term_never_raises (db : Database) (term : string) :
  exists r, _doc_for_term db term = Ok r.
Proof.
  destruct (filter (Xapian.matches (Xapian.Term term))
              (Xapian.documents (xapian_db db))) as [|m rest] eqn:E.
  - exists None. now apply doc_for_term_no_match.
  - destruct (doc_for_term_first_match db term m rest E) as [d [H _]].
    now exists (Some d).
Qed.

(** C8 fails where two documents carry the term: the lookup returns the
    first of them instead of raising. *)
Theorem doc_for_path_ambiguous_returns_first :
  doc_for_path twice_indexed "paper.pdf"
  = Ok (Some {| doc := {| Xapian.termlist := ["Ppaper.pdf"; "Q1"];
                          Xapian.data := ""; Xapian.docid := 1 |};
                docid := 1; path := Some ["paper.pdf"] |}).
Proof. reflexivity. Qed.

(** ** C2: document ids *)

Lemma Document_init_fresh (db : Database) :
  Document_init db None
  = Ok {| doc := {| Xapian.termlist := ["Q" ++ str_of_N (_generate_docid db)];
                    Xapian.data := ""; Xapian.docid := 0 |};
          docid := _generate_docid db; path := None |}.
Proof. reflexivity. Qed.

Lemma generate_docid_positive (db : Database) : (_generate_docid db <> 0)%N.
Proof. unfold _generate_docid. lia. Qed.

(** [sync] returns exactly when its needs are met, and then the database
    holds the document under its id. *)
Lemma sync_returns (d : Document) (db : Database) :
  can_sync db d = true ->
  sync d db
  = Ok (with_xapian_db db
          {| Xapian.documents :=
               Xapian.put_document
                 {| Xapian.termlist := Xapian.termlist (doc d);
                    Xapian.data := Xapian.data (doc d);
                    Xapian.docid := docid d |}
                 (Xapian.documents (xapian_db db));
             Xapian.lastdocid :=
               N.max (Xapian.lastdocid (xapian_db db)) (docid d);
             Xapian.max_term_length := Xapian.max_term_length (xapian_db db);
             Xapian.max_docid := Xapian.max_docid (xapian_db db) |}).
Proof.
  unfold can_sync, sync, Xapian.replace_document. intros H.
  apply andb_prop in H. destruct H as [H Hfit].
  apply andb_prop in H. destruct H as [H Hzero].
  apply andb_prop in H. destruct H as [Hw Hmax].
  rewrite Hw, Hfit. apply negb_true_iff in Hzero. rewrite Hzero.
  apply N.leb_le in Hmax. apply N.ltb_ge in Hmax. rewrite Hmax.
  reflexivity.
Qed.









(** The document methods leave the id of the document alone, so the id a
    fresh document is synced under is the one it was built with. *)
Lemma add_term_keeps_docid (o : option string) (v : string) (self : Document) :
  docid (snd (_add_term o v self)) = docid self.
Proof.
  unfold _add_term. destruct (Xapian.add_term _ _); reflexivity.
Qed.

Lemma remove_term_keeps_docid (o : option string) (v : string)
      (self : Document) :
  docid (snd (_remove_term o v self)) = docid self.
Proof.
  unfold _remove_term. destruct (Xapian.remove_term _ _); reflexivity.
Qed.

(** ** C3: adding a file *)

Lemma slice_from_length (n : nat) (s : string) :
  String.length (slice_from n s) <= String.length s.
Proof.
  revert s; induction n as [|n IH]; intros s; simpl; [lia|].
  destruct s as [|c s]; simpl; [lia|].
  specialize (IH s). lia.
Qed.

Lemma unpack2_short (v : option string) :
  (forall s, v = Some s -> String.length s <= 1) ->
  exists e, unpack2 v = Raise e.
Proof.
  intros H. destruct v as [s|]; [|now exists TypeError].
  specialize (H s eq_refl).
  destruct s as [|a [|b [|c s]]]; simpl in *;
    try (now exists ValueError); lia.
Qed.

Lemma unpack2_not_two (s : string) :
  String.length s <> 2 -> unpack2 (Some s) = Raise ValueError.
Proof.
  destruct s as [|a [|b [|c s]]]; simpl; intros H;
    try reflexivity; now elim H.
Qed.

Lemma basename_of_char_short (db : Database) (c : ascii) :
  forall s, _basename_for_path db (String c EmptyString) = Some s ->
            String.length s <= 1.
Proof.
  intros s. unfold _basename_for_path.
  destruct (find (String c "") "/" =? 0)%Z.
  - destruct (find (String c "") (root db) =? 0)%Z; [|discriminate].
    intros [= <-].
    apply (slice_from_length (String.length (root db)) (String c "")).
  - intros [= <-]. simpl. lia.
Qed.

(** [_index_file] of a one-character path stops at its first line. *)
Lemma index_file_of_char_raises (parse_file : string -> res string)
      (db : Database) (c : ascii) (st : FileState) :
  exists e, _index_file parse_file db (String c EmptyString) st = (Raise e, st).
Proof.
  unfold _index_file, bind, try.
  destruct (unpack2_short _ (basename_of_char_short db c)) as [e ->].
  now exists e.
Qed.

(** The defect behind C3: [_basename_for_path] returns one string, which
    [add_file] unpacks into two names.  Whatever the path, [add_file] raises,
    the parser is not called and the document is left as it was. *)
Lemma add_file_always_raises (parse_file : string -> res string)
      (db : Database) (path : string) (st : FileState) :
  exists e, add_file parse_file db path st = (Raise e, st).
Proof.
  unfold add_file, bind, try.
  destruct (_basename_for_path db path) as [[|a [|b [|c s]]]|]; simpl;
    try (now eexists).
  destruct (doc_for_path db (String a "")) as [[d|]|e]; simpl;
    try (now eexists).
  unfold raise, ret.
  destruct (index_file_of_char_raises parse_file db b st) as [e ->].
  now exists e.
Qed.

(** Unless the resolved path has exactly two characters, the exception is
    the [ValueError] of the unpacking, not [ImportPathExists]. *)
Lemma add_file_unpack_error (parse_file : string -> res string)
      (db : Database) (path base : string) (st : FileState) :
  _basename_for_path db path = Some base ->
  String.length base <> 2 ->
  add_file parse_file db path st = (Raise ValueError, st).
Proof.
  intros Hb Hl. unfold add_file, bind, try.
  rewrite Hb, (unpack2_not_two base Hl). reflexivity.
Qed.

(** C3 fails on a path that is in the index: [add_file] raises [ValueError]
    rather than [ImportPathExists 1].  (Nothing is extracted and no term is
    changed, as the claim says.) *)
Theorem add_file_duplicate_raises_ValueError
        (parse_file : string -> res string) :
  (exists d, doc_for_path indexed_once "paper.pdf" = Ok (Some d)
             /\ get_docid d = 1%N) /\
  add_file parse_file indexed_once "paper.pdf" (sample_doc ["Q2"] 2, [])
  = (Raise ValueError, (sample_doc ["Q2"] 2, [])).
Proof.
  split.
  - eexists; split; reflexivity.
  - apply (add_file_unpack_error parse_file indexed_once "paper.pdf" "paper.pdf");
      [reflexivity | discriminate].
Qed.

(** ** The term list of a document *)

Lemma ascii_compare_trans (a b c : ascii) :
  Ascii.compare a b = Lt -> Ascii.compare b c = Lt -> Ascii.compare a c = Lt.
Proof.
  unfold Ascii.compare. rewrite !N.compare_lt_iff. lia.
Qed.

Lemma compare_refl (s : string) : String.compare s s = Eq.
Proof.
  assert (E := String.compare_antisym s s).
  destruct (String.compare s s); simpl in E; congruence.
Qed.

Lemma term_lt_irrefl (s : string) : ~ term_lt s s.
Proof. unfold term_lt. rewrite compare_refl. discriminate. Qed.

Lemma term_lt_trans (a b c : string) :
  term_lt a b -> term_lt b c -> term_lt a c.
Proof.
  unfold term_lt. revert b c.
  induction a as [|x a IH]; intros [|y b] [|z c]; simpl;
    try discriminate; try reflexivity.
  destruct (Ascii.compare x y) eqn:Exy; try discriminate;
    destruct (Ascii.compare y z) eqn:Eyz; try discriminate; intros Hab Hbc.
  - apply Ascii.compare_eq_iff in Exy, Eyz. subst.
    rewrite (proj2 (N.compare_eq_iff _ _) eq_refl : Ascii.compare z z = Eq).
    now apply (IH b c).
  - apply Ascii.compare_eq_iff in Exy. subst. now rewrite Eyz.
  - apply Ascii.compare_eq_iff in Eyz. subst. now rewrite Exy.
  - now rewrite (ascii_compare_trans x y z Exy Eyz).
Qed.

Lemma compare_Gt_lt (a b : string) : String.compare a b = Gt -> term_lt b a.
Proof.
  unfold term_lt. intros H. rewrite String.compare_antisym, H. reflexivity.
Qed.

Lemma In_insert_term (t y : string) (l : list string) :
  In y (Xapian.insert_term t l) <-> y = t \/ In y l.
Proof.
  induction l as [|x r IH]; simpl.
  - intuition.
  - destruct (String.compare t x) eqn:E; simpl.
    + apply String.compare_eq_iff in E. subst x. intuition.
    + intuition.
    + rewrite IH. intuition.
Qed.

Lemma sorted_insert_term (t : string) (l : list string) :
  StronglySorted term_lt l -> StronglySorted term_lt (Xapian.insert_term t l).
Proof.
  induction 1 as [|x r Hr IH Hx]; simpl.
  - repeat constructor.
  - destruct (String.compare t x) eqn:E.
    + now constructor.
    + constructor; [now constructor|].
      constructor; [exact E|].
      eapply Forall_impl; [|exact Hx].
      intros y Hy. now apply (term_lt_trans t x y).
    + constructor; [exact IH|].
      apply Forall_forall. intros y Hy.
      apply In_insert_term in Hy. destruct Hy as [-> | Hy].
      * now apply compare_Gt_lt.
      * rewrite Forall_forall in Hx. now apply Hx.
Qed.

Lemma sorted_filter (f : string -> bool) (l : list string) :
  StronglySorted term_lt l -> StronglySorted term_lt (filter f l).
Proof.
  induction 1 as [|x r Hr IH Hx]; simpl; [constructor|].
  destruct (f x); [|exact IH].
  constructor; [exact IH|].
  apply Forall_forall. intros y Hy. apply filter_In in Hy.
  rewrite Forall_forall in Hx. now apply Hx.
Qed.

Lemma sorted_NoDup (l : list string) : StronglySorted term_lt l -> NoDup l.
Proof.
  induction 1 as [|x r Hr IH Hx]; constructor; [|exact IH].
  intros Hin. rewrite Forall_forall in Hx.
  exact (term_lt_irrefl x (Hx x Hin)).
Qed.

Lemma sorted_insert_all (ts l : list string) :
  StronglySorted term_lt l ->
  StronglySorted term_lt (fold_left (fun l t => Xapian.insert_term t l) ts l).
Proof.
  revert l; induction ts as [|t ts IH]; intros l H; simpl; [exact H|].
  apply IH. now apply sorted_insert_term.
Qed.

Lemma In_insert_all (ts l : list string) (y : string) :
  In y (fold_left (fun l t => Xapian.insert_term t l) ts l)
  <-> In y ts \/ In y l.
Proof.
  revert l; induction ts as [|t ts IH]; intros l; simpl.
  - intuition.
  - rewrite IH, In_insert_term. intuition.
Qed.

(** Inserting a term that fails a test does not change which terms pass. *)
Lemma filter_insert_other (f : string -> bool) (t : string) (l : list string) :
  f t = false -> filter f (Xapian.insert_term t l) = filter f l.
Proof.
  intros Ht. induction l as [|x r IH]; simpl.
  - now rewrite Ht.
  - destruct (String.compare t x); simpl.
    + reflexivity.
    + now rewrite Ht.
    + now rewrite IH.
Qed.

Lemma filter_insert_all_other (f : string -> bool) (ts l : list string) :
  (forall t, In t ts -> f t = false) ->
  filter f (fold_left (fun l t => Xapian.insert_term t l) ts l) = filter f l.
Proof.
  revert l; induction ts as [|t ts IH]; intros l H; simpl; [reflexivity|].
  rewrite IH by (intros; apply H; now right).
  apply filter_insert_other, H. now left.
Qed.

(** Inserting a term that passes a test no term passes leaves it alone. *)
Lemma filter_insert_only (f : string -> bool) (t : string) (l : list string) :
  f t = true -> filter f l = [] -> filter f (Xapian.insert_term t l) = [t].
Proof.
  intros Ht. induction l as [|x r IH]; simpl.
  - now rewrite Ht.
  - destruct (f x) eqn:Hx; [discriminate|]. intros Hr.
    destruct (String.compare t x) eqn:E; simpl.
    + apply String.compare_eq_iff in E. congruence.
    + now rewrite Ht, Hx, Hr.
    + now rewrite Hx, IH.
Qed.

Lemma filter_negb_filter (f : string -> bool) (l : list string) :
  filter f (filter (fun t => negb (f t)) l) = [].
Proof.
  induction l as [|x r IH]; simpl; [reflexivity|].
  destruct (f x) eqn:E; simpl; [exact IH | now rewrite E].
Qed.

Lemma has_term_In (t : string) (l : list string) :
  Xapian.has_term t l = true <-> In t l.
Proof.
  unfold Xapian.has_term. rewrite existsb_exists. split.
  - intros [x [Hx E]]. apply String.eqb_eq in E. now subst.
  - intros H. exists t. split; [exact H | apply String.eqb_refl].
Qed.

(** ** Steps of the document methods *)

Lemma set_terms_same (self : Document) :
  set_terms self (Xapian.termlist (doc self)) = self.
Proof. destruct self as [[l dat did] id pth]. reflexivity. Qed.

Lemma set_terms_twice (self : Document) (a b : list string) :
  set_terms (set_terms self a) b = set_terms self b.
Proof. reflexivity. Qed.

Lemma termlist_set_terms (self : Document) (a : list string) :
  Xapian.termlist (doc (set_terms self a)) = a.
Proof. reflexivity. Qed.

Lemma get_terms_under (p : string) (self : Document) :
  _get_terms (Some p) self
  = Ok (map (slice_from (String.length p))
          (filter (String.prefix p) (Xapian.termlist (doc self)))).
Proof.
  unfold _get_terms. do 2 f_equal.
  apply filter_ext. intros t. apply find_zero_prefix.
Qed.

Lemma add_term_step (p v : string) (self : Document) :
  p <> "" ->
  _add_term (Some p) v self
  = (Ok tt, set_terms self
              (Xapian.insert_term (p ++ v) (Xapian.termlist (doc self)))).
Proof.
  intros Hp. destruct p as [|a p]; [now elim Hp|]. reflexivity.
Qed.

Lemma remove_term_present (o : option string) (s : string) (self : Document) :
  In (format_s o ++ s) (Xapian.termlist (doc self)) ->
  _remove_term o s self
  = (Ok tt, set_terms self
              (filter (fun x => negb (String.eqb x (format_s o ++ s)))
                      (Xapian.termlist (doc self)))).
Proof.
  intros H. apply has_term_In in H.
  unfold _remove_term, Xapian.remove_term. now rewrite H.
Qed.

Lemma remove_term_absent (o : option string) (s : string) (self : Document) :
  ~ In (format_s o ++ s) (Xapian.termlist (doc self)) ->
  _remove_term o s self = (Raise InvalidArgumentError, self).
Proof.
  intros H. unfold _remove_term, Xapian.remove_term.
  destruct (Xapian.has_term _ _) eqn:E; [|reflexivity].
  apply has_term_In in E. contradiction.
Qed.

Lemma filter_filter_and (f g : string -> bool) (l : list string) :
  filter f (filter g l) = filter (fun x => g x && f x) l.
Proof.
  induction l as [|x r IH]; simpl; [reflexivity|].
  destruct (g x); simpl; [destruct (f x)|]; now rewrite IH.
Qed.

(** The loop [for term in terms: self._remove_term(prefix, term)] over
    distinct terms of the document removes exactly those. *)
Lemma for_each_remove_terms (p : string) (ts : list string) (self : Document) :
  (forall t, In t ts -> String.prefix p t = true) ->
  NoDup ts ->
  incl ts (Xapian.termlist (doc self)) ->
  for_each (map (slice_from (String.length p)) ts)
           (fun s => _remove_term (Some p) s) self
  = (Ok tt, set_terms self
              (filter (fun x => negb (existsb (String.eqb x) ts))
                      (Xapian.termlist (doc self)))).
Proof.
  revert self; induction ts as [|t ts IH]; intros self Hp Hnd Hin.
  - simpl. unfold ret. f_equal.
    rewrite <- (set_terms_same self) at 1. f_equal.
    symmetry. apply forallb_filter_id. apply forallb_forall. reflexivity.
  - cbn [map for_each]. unfold bind.
    assert (Et : format_s (Some p) ++ slice_from (String.length p) t = t)
      by (apply prefix_slice, Hp; now left).
    rewrite remove_term_present by (rewrite Et; apply Hin; now left).
    rewrite Et.
    inversion Hnd as [|? ? Ht Hts]; subst.
    rewrite IH.
    + rewrite set_terms_twice, termlist_set_terms, filter_filter_and.
      apply (f_equal (fun l => (Ok tt, set_terms self l))).
      apply filter_ext.
      intros x. cbn [existsb]. now rewrite negb_orb.
    + intros y Hy. apply Hp. now right.
    + exact Hts.
    + intros y Hy. rewrite termlist_set_terms.
      apply filter_In. split; [apply Hin; now right|].
      apply negb_true_iff, String.eqb_neq. intros ->. contradiction.
Qed.

Lemma existsb_eqb_filter (f : string -> bool) (l : list string) (x : string) :
  In x l -> existsb (String.eqb x) (filter f l) = f x.
Proof.
  intros Hx. destruct (f x) eqn:E.
  - apply existsb_exists. exists x. split; [|apply String.eqb_refl].
    apply filter_In. now split.
  - apply not_true_is_false. intros H. apply existsb_exists in H.
    destruct H as [y [Hy Exy]]. apply String.eqb_eq in Exy. subst y.
    apply filter_In in Hy. destruct Hy as [_ Hy]. congruence.
Qed.

(** [for term in self._get_terms(prefix): self._remove_term(prefix, term)],
    followed by [k]: every term under the prefix is gone when [k] starts. *)
Lemma remove_under_then {A} (p : string) (k : M Document A) (self : Document) :
  NoDup (Xapian.termlist (doc self)) ->
  bind (reads (_get_terms (Some p)))
       (fun l => bind (for_each l (fun term => _remove_term (Some p) term))
                      (fun _ => k)) self
  = k (set_terms self (filter (fun t => negb (String.prefix p t))
                              (Xapian.termlist (doc self)))).
Proof.
  intros Hnd. unfold bind at 1. unfold reads. rewrite get_terms_under.
  unfold bind. rewrite for_each_remove_terms.
  - apply (f_equal (fun l => k (set_terms self l))).
    apply filter_ext_in.
    intros x Hx. now rewrite existsb_eqb_filter.
  - intros t Ht. apply filter_In in Ht. tauto.
  - now apply NoDup_filter.
  - intros t Ht. apply filter_In in Ht. tauto.
Qed.

Lemma gen_terms_step (db : Database) (prefix : option string) (text : string)
      (self : Document) :
  _gen_terms db prefix text self
  = (Ok tt, set_terms self
              (fold_left (fun l t => Xapian.insert_term t l)
                         (generated_terms db prefix text)
                         (Xapian.termlist (doc self)))).
Proof.
  unfold _gen_terms, generated_terms.
  destruct prefix as [p|]; [destruct (truthy p)|];
    rewrite ?fold_left_app; reflexivity.
Qed.

Lemma In_word_terms (tg : Xapian.TermGenerator) (pfx w t : string) :
  In t (Xapian.word_terms tg pfx w) ->
  t = pfx ++ w \/ exists st, t = "Z" ++ pfx ++ st.
Proof.
  unfold Xapian.word_terms. intros [<- | H]; [now left|].
  destruct (Xapian.stem tg w) as [st|]; [|contradiction].
  destruct H as [<- | []]. right. now exists st.
Qed.

Lemma In_index_terms (tg : Xapian.TermGenerator) (text pfx t : string) :
  In t (Xapian.index_terms tg text pfx) ->
  (exists w, In w (Xapian.words tg text) /\ t = pfx ++ w)
  \/ exists st, t = "Z" ++ pfx ++ st.
Proof.
  unfold Xapian.index_terms. intros H. apply in_flat_map in H.
  destruct H as [w [Hw Ht]].
  destruct (In_word_terms tg pfx w t Ht) as [-> | E]; [left | now right].
  now exists w.
Qed.

Lemma lowercase_not_under_X (w q : string) :
  lower w = w -> String.prefix (String "X" q) w = false.
Proof.
  destruct w as [|c w]; [reflexivity|].
  intros H. apply prefix_head. intros <-. discriminate.
Qed.

(** Under a lower-casing term generator, indexing a text under a prefix that
    does not start with "X" generates no term that starts with "X". *)
Lemma generated_not_under_X (db : Database) (c : ascii) (pt text q t : string) :
  lowercase_words (term_gen db) ->
  c <> "X"%char ->
  In t (generated_terms db (Some (String c pt)) text) ->
  String.prefix (String "X" q) t = false.
Proof.
  intros Hlow Hc. unfold generated_terms. cbn [truthy String.eqb negb].
  intros H. apply in_app_or in H.
  destruct H as [H | H]; apply In_index_terms in H;
    destruct H as [[w [Hw ->]] | [st ->]].
  - apply prefix_head. congruence.
  - apply prefix_head. discriminate.
  - apply lowercase_not_under_X. now apply (Hlow text).
  - apply prefix_head. discriminate.
Qed.

(** ** C4: single-valued fields *)

(** What a single-valued setter leaves: the old terms under the prefix are
    gone and the new one is there. *)
Lemma single_valued_after (p v : string) (l : list string) :
  filter (String.prefix p) l = [] ->
  filter (String.prefix p) (Xapian.insert_term (p ++ v) l) = [p ++ v].
Proof. intros H. apply filter_insert_only; [apply prefix_app | exact H]. Qed.

Lemma replace_under (p v : string) (self : Document) :
  p <> "" -> well_formed self ->
  exists l',
    bind (reads (_get_terms (Some p)))
         (fun l => bind (for_each l (fun term => _remove_term (Some p) term))
                        (fun _ => _add_term (Some p) v)) self
    = (Ok tt, set_terms self l') /\
    StronglySorted term_lt l' /\
    filter (String.prefix p) l' = [p ++ v].
Proof.
  intros Hp Hwf.
  rewrite remove_under_then by now apply sorted_NoDup.
  rewrite add_term_step by exact Hp.
  rewrite set_terms_twice, termlist_set_terms.
  eexists; split; [reflexivity|]. split.
  - now apply sorted_insert_term, sorted_filter.
  - apply single_valued_after, filter_negb_filter.
Qed.

(** The shape shared by [set_title] and [set_authors]. *)
Lemma replace_dual (db : Database) (c : ascii) (pt zp q v : string)
      (self : Document) :
  c <> "X"%char -> lowercase_words (term_gen db) -> well_formed self ->
  let pf := String "X" q in
  exists l',
    bind (reads (_get_terms (Some (String c pt))))
      (fun l => bind (for_each l (fun term => _remove_term (Some (String c pt)) term))
      (fun _ => bind (reads (_get_terms (Some zp)))
      (fun l => bind (for_each l (fun term => _remove_term (Some zp) term))
      (fun _ => bind (reads (_get_terms (Some pf)))
      (fun l => bind (for_each l (fun term => _remove_term (Some pf) term))
      (fun _ => bind (_gen_terms db (Some (String c pt)) v)
      (fun _ => _add_term (Some pf) v))))))) self
    = (Ok tt, set_terms self l') /\
    StronglySorted term_lt l' /\
    filter (String.prefix pf) l' = [pf ++ v].
Proof.
  intros Hc Hlow Hwf pf.
  rewrite remove_under_then by now apply sorted_NoDup.
  rewrite remove_under_then
    by (rewrite termlist_set_terms; now apply sorted_NoDup, sorted_filter).
  rewrite remove_under_then
    by (rewrite !termlist_set_terms;
        now apply sorted_NoDup, sorted_filter, sorted_filter).
  unfold bind. rewrite gen_terms_step.
  rewrite add_term_step by discriminate.
  rewrite !set_terms_twice, !termlist_set_terms.
  eexists; split; [reflexivity|]. split.
  - apply sorted_insert_term, sorted_insert_all.
    now repeat apply sorted_filter.
  - apply single_valued_after.
    rewrite filter_insert_all_other.
    + apply filter_negb_filter.
    + intros t Ht. now apply (generated_not_under_X db c pt v q t).
Qed.

Lemma setter_twice (name p : string) (set : string -> M Document unit) :
  _find_prefix name = Some p ->
  (forall v self, well_formed self ->
     exists l', set v self = (Ok tt, set_terms self l') /\
                StronglySorted term_lt l' /\
                filter (String.prefix p) l' = [p ++ v]) ->
  forall v1 v2 self, well_formed self ->
    returns_with (set v1 ;; set v2) self (holds_exactly name v2).
Proof.
  intros Hname Hset v1 v2 self Hwf.
  destruct (Hset v1 self Hwf) as [l1 [E1 [S1 _]]].
  destruct (Hset v2 (set_terms self l1)) as [l2 [E2 [_ F2]]]; [exact S1|].
  exists tt, (set_terms self l2). split.
  - unfold bind. now rewrite E1, E2.
  - exists p. split; [exact Hname | exact F2].
Qed.

(** C4.  On a document whose terms are as the engine keeps them, and with a
    term generator that lower-cases its words, calling the setter of url,
    year, title or authors with [v1] and then with [v2] returns and leaves
    exactly one term under the prefix of url, year, fulltitle or
    fullauthors: the prefix followed by [v2]. *)
Theorem single_valued_setters_replace
        (db : Database) (self : Document) (v1 v2 : string) :
  well_formed self -> lowercase_words (term_gen db) ->
  returns_with (set_url v1 ;; set_url v2) self (holds_exactly "url" v2) /\
  returns_with (set_year v1 ;; set_year v2) self (holds_exactly "year" v2) /\
  returns_with (set_title db v1 ;; set_title db v2) self
               (holds_exactly "fulltitle" v2) /\
  returns_with (set_authors db v1 ;; set_authors db v2) self
               (holds_exactly "fullauthors" v2).
Proof.
  intros Hwf Hlow. repeat split.
  - apply (setter_twice "url" "U" set_url); [reflexivity| |exact Hwf].
    intros v s Hs. now apply (replace_under "U" v s).
  - apply (setter_twice "year" "Y" set_year); [reflexivity| |exact Hwf].
    intros v s Hs. now apply (replace_under "Y" v s).
  - apply (setter_twice "fulltitle" "XTITLE:" (set_title db));
      [reflexivity| |exact Hwf].
    intros v s Hs.
    now apply (replace_dual db "S"%char "" "ZS" "TITLE:" v s).
  - apply (setter_twice "fullauthors" "XAUTHORS:" (set_authors db));
      [reflexivity| |exact Hwf].
    intros v s Hs.
    now apply (replace_dual db "A"%char "" "ZA" "AUTHORS:" v s).
Qed.

Lemma lower_ascii_idem (c : ascii) : lower_ascii (lower_ascii c) = lower_ascii c.
Proof. destruct c as [[] [] [] [] [] [] [] []]; reflexivity. Qed.

Lemma lower_app (a b : string) : lower (a ++ b) = lower a ++ lower b.
Proof. induction a as [|c a IH]; simpl; [reflexivity | now rewrite IH]. Qed.

Lemma split_words_lowercase (s cur w : string) :
  lower cur = cur -> In w (split_words s cur) -> lower w = w.
Proof.
  revert cur; induction s as [|c s IH]; intros cur Hcur; simpl.
  - destruct (truthy cur); [|intros []]. intros [<- | []]. exact Hcur.
  - destruct (is_alnum c).
    + apply IH. rewrite lower_app, Hcur. simpl. now rewrite lower_ascii_idem.
    + destruct (truthy cur).
      * intros [<- | H]; [exact Hcur | now apply (IH "")].
      * now apply (IH "").
Qed.

Lemma sample_term_gen_lowercase : lowercase_words sample_term_gen.
Proof. intros text w H. now apply (split_words_lowercase text "" w). Qed.

Lemma single_valued_setters_replace_witness :
  let db := sample_db [] 0 in
  let self := sample_doc ["Kphysics"; "Sold"; "Uhttp://old"; "XTITLE:Old";
                          "Y1999"; "ZSold"; "old"] 1 in
  returns_with (set_url "Waves I" ;; set_url "Waves II") self
               (holds_exactly "url" "Waves II") /\
  returns_with (set_year "Waves I" ;; set_year "Waves II") self
               (holds_exactly "year" "Waves II") /\
  returns_with (set_title db "Waves I" ;; set_title db "Waves II") self
               (holds_exactly "fulltitle" "Waves II") /\
  returns_with (set_authors db "Waves I" ;; set_authors db "Waves II") self
               (holds_exactly "fullauthors" "Waves II").
Proof.
  apply (single_valued_setters_replace (sample_db [] 0)
           (sample_doc ["Kphysics"; "Sold"; "Uhttp://old"; "XTITLE:Old";
                        "Y1999"; "ZSold"; "old"] 1)
           "Waves I" "Waves II").
  - sorted_terms.
  - exact sample_term_gen_lowercase.
Defined.

(** ** C5: removing a source *)

Lemma dict_get_set {V} (k k' : string) (v : V) (d : list (string * V)) :
  dict_get k (dict_set k' v d)
  = if String.eqb k' k then Some v else dict_get k d.
Proof.
  induction d as [|[a b] d IH]; simpl; [reflexivity|].
  destruct (String.eqb_spec a k') as [-> | Hak]; simpl.
  - destruct (String.eqb k' k); reflexivity.
  - rewrite IH.
    destruct (String.eqb_spec a k) as [-> | _]; [|reflexivity].
    destruct (String.eqb_spec k' k) as [-> | _]; [now elim Hak | reflexivity].
Qed.

Lemma dict_has_set {V} (k k' : string) (v : V) (d : list (string * V)) :
  dict_has k (dict_set k' v d) = true -> k = k' \/ dict_has k d = true.
Proof.
  unfold dict_has. rewrite dict_get_set.
  destruct (String.eqb_spec k' k) as [-> | _]; [now left | now right].
Qed.

Lemma get_source_id_returns (source : string) (self : Document) :
  exists v, get_source_id source self = Ok v.
Proof.
  unfold get_source_id. rewrite get_terms_under. simpl.
  destruct (map _ _); eexists; reflexivity.
Qed.

(** The keys of the dict [get_sources] builds are among the names it loops
    over. *)
Lemma get_sources_loop_keys (self : Document) (l : list string)
      (acc : list (string * option string)) :
  exists s, get_sources_loop self l acc = Ok s /\
            forall k, dict_has k s = true -> In k l \/ dict_has k acc = true.
Proof.
  revert acc; induction l as [|source l IH]; intros acc; simpl.
  - exists acc. split; [reflexivity | now right].
  - destruct (truthy source); simpl.
    + destruct (get_source_id_returns source self) as [v ->]. simpl.
      destruct (IH (dict_set source v acc)) as [s [E Hs]].
      exists s. split; [exact E|].
      intros k Hk. destruct (Hs k Hk) as [H | H]; [now left; right|].
      apply dict_has_set in H. destruct H as [-> | H]; [now left; left | now right].
    + exists acc. split; [reflexivity | now right].
Qed.

Lemma filter_none (f : string -> bool) (l : list string) :
  (forall t, In t l -> f t = false) -> filter f l = [].
Proof.
  induction l as [|x r IH]; simpl; intros H; [reflexivity|].
  rewrite (H x) by now left. apply IH. intros t Ht. apply H. now right.
Qed.

(** A document with neither half of a source entry does not list it. *)
Lemma source_gone (source : string) (self : Document) :
  ~ In ("XSOURCE:" ++ source) (Xapian.termlist (doc self)) ->
  (forall t, In t (Xapian.termlist (doc self)) ->
             String.prefix (_make_source_prefix source) t = false) ->
  (exists s, get_sources self = Ok s /\ dict_has source s = false) /\
  get_source_id source self = Ok None.
Proof.
  intros Hm Hid. split.
  - unfold get_sources.
    change (_find_prefix "source") with (Some "XSOURCE:").
    rewrite get_terms_under. cbn [res_bind].
    destruct (get_sources_loop_keys self
                (map (slice_from (String.length "XSOURCE:"))
                   (filter (String.prefix "XSOURCE:")
                      (Xapian.termlist (doc self)))) []) as [s [E Hs]].
    exists s. split; [exact E|].
    apply not_true_is_false. intros Hk.
    destruct (Hs source Hk) as [H | H]; [|discriminate].
    apply in_map_iff in H. destruct H as [t [Et Ht]].
    apply filter_In in Ht. destruct Ht as [Hin Hpre].
    apply prefix_slice in Hpre. rewrite Et in Hpre. subst t.
    contradiction.
  - unfold get_source_id. rewrite get_terms_under.
    now rewrite (filter_none _ _ Hid).
Qed.

(** C5.  On a document whose terms are as the engine keeps them and which
    has the membership term of a source, [remove_source] leaves a document
    without that membership term and without any term under the dynamic
    prefix of the source, so that [get_sources] does not list the source and
    [get_source_id] returns [None]; every other term is kept.  The call
    returns normally unless the membership term itself lies under the
    dynamic prefix of the source. *)
Theorem remove_source_removes_both_halves (source : string) (self : Document) :
  well_formed self ->
  In ("XSOURCE:" ++ source) (Xapian.termlist (doc self)) ->
  exists r self',
    remove_source source self = (r, self') /\
    ~ In ("XSOURCE:" ++ source) (Xapian.termlist (doc self')) /\
    (forall t, In t (Xapian.termlist (doc self')) ->
               String.prefix (_make_source_prefix source) t = false) /\
    (exists s, get_sources self' = Ok s /\ dict_has source s = false) /\
    get_source_id source self' = Ok None /\
    (forall t, In t (Xapian.termlist (doc self)) ->
               String.prefix (_make_source_prefix source) t = false ->
               t <> "XSOURCE:" ++ source ->
               In t (Xapian.termlist (doc self'))) /\
    (String.prefix (_make_source_prefix source) ("XSOURCE:" ++ source) = false
     -> r = Ok tt).
Proof.
  intros Hwf Hm.
  unfold remove_source.
  rewrite remove_under_then by now apply sorted_NoDup.
  set (P := _make_source_prefix source).
  set (l := Xapian.termlist (doc self)) in *.
  set (l1 := filter (fun t => negb (String.prefix P t)) l).
  assert (Hl1 : forall t, In t l1 -> String.prefix P t = false).
  { intros t Ht. apply filter_In in Ht. now apply negb_true_iff. }
  destruct (in_dec string_dec ("XSOURCE:" ++ source) l1) as [Hin | Hout].
  - rewrite remove_term_present by exact Hin.
    rewrite set_terms_twice, termlist_set_terms.
    change (format_s (_find_prefix "source") ++ source)
      with ("XSOURCE:" ++ source).
    set (l2 := filter (fun x => negb (String.eqb x ("XSOURCE:" ++ source))) l1).
    assert (Hgone : ~ In ("XSOURCE:" ++ source) l2).
    { intros H. apply filter_In in H. destruct H as [_ H].
      now rewrite String.eqb_refl in H. }
    assert (Hl2 : forall t, In t l2 -> String.prefix P t = false).
    { intros t Ht. apply filter_In in Ht. now apply Hl1. }
    exists (Ok tt), (set_terms self l2). split; [reflexivity|].
    rewrite termlist_set_terms.
    destruct (source_gone source (set_terms self l2) Hgone Hl2) as [Hs Hi].
    split; [exact Hgone|]. split; [exact Hl2|]. split; [exact Hs|].
    split; [exact Hi|]. split; [|reflexivity].
    intros t Ht Hp Hne. apply filter_In. split.
    + apply filter_In. split; [exact Ht | now rewrite Hp].
    + now apply negb_true_iff, String.eqb_neq.
  - rewrite remove_term_absent by exact Hout.
    exists (Raise InvalidArgumentError), (set_terms self l1).
    split; [reflexivity|]. rewrite termlist_set_terms.
    destruct (source_gone source (set_terms self l1) Hout Hl1) as [Hs Hi].
    split; [exact Hout|]. split; [exact Hl1|]. split; [exact Hs|].
    split; [exact Hi|]. split.
    + intros t Ht Hp Hne. apply filter_In. split; [exact Ht | now rewrite Hp].
    + intros Hfree. exfalso. apply Hout.
      apply filter_In. split; [exact Hm | now rewrite Hfree].
Qed.

Lemma remove_source_removes_both_halves_witness :
  let self := sample_doc ["Kphysics"; "XDOI:10.1000/182"; "XSOURCE:doi"] 1 in
  exists r self',
    remove_source "doi" self = (r, self') /\
    ~ In ("XSOURCE:" ++ "doi") (Xapian.termlist (doc self')) /\
    (forall t, In t (Xapian.termlist (doc self')) ->
               String.prefix (_make_source_prefix "doi") t = false) /\
    (exists s, get_sources self' = Ok s /\ dict_has "doi" s = false) /\
    get_source_id "doi" self' = Ok None /\
    (forall t, In t (Xapian.termlist (doc self)) ->
               String.prefix (_make_source_prefix "doi") t = false ->
               t <> "XSOURCE:" ++ "doi" ->
               In t (Xapian.termlist (doc self'))) /\
    (String.prefix (_make_source_prefix "doi") ("XSOURCE:" ++ "doi") = false
     -> r = Ok tt).
Proof.
  apply (remove_source_removes_both_halves "doi"
           (sample_doc ["Kphysics"; "XDOI:10.1000/182"; "XSOURCE:doi"] 1)).
  - sorted_terms.
  - simpl. tauto.
Defined.

(** The source entry that [_add_source] makes for the id "10.1000/182" of
    "doi" is undone by [remove_source]. *)
Lemma remove_source_undoes_add_source :
  (_add_source "doi" "10.1000/182" ;; remove_source "doi")
    (sample_doc ["Kphysics"; "Q1"] 1)
  = (Ok tt, sample_doc ["Kphysics"; "Q1"] 1).
Proof. reflexivity. Qed.

(** A source called "source" has the membership prefix as its dynamic
    prefix: the loop of [remove_source] takes the membership terms of all
    sources away, and the removal that follows raises. *)
Lemma remove_source_named_source_raises :
  ((_add_source "doi" "10.1000/182" ;; _add_source "source" "42") ;;
   remove_source "source") (sample_doc ["Q1"] 1)
  = (Raise InvalidArgumentError, sample_doc ["Q1"; "XDOI:10.1000/182"] 1).
Proof. reflexivity. Qed.

(** ** C9: generated terms accumulate *)

(** C9.  [_gen_terms] returns, keeps every term the document had and adds
    the terms it generates; a second call with the same text keeps every
    term that was there after the first. *)
Theorem gen_terms_never_removes (db : Database) (prefix : option string)
        (text : string) (self : Document) :
  exists self1 self2,
    _gen_terms db prefix text self = (Ok tt, self1) /\
    _gen_terms db prefix text self1 = (Ok tt, self2) /\
    (forall t, In t (Xapian.termlist (doc self)) ->
               In t (Xapian.termlist (doc self1))) /\
    (forall t, In t (generated_terms db prefix text) ->
               In t (Xapian.termlist (doc self1))) /\
    (forall t, In t (Xapian.termlist (doc self1)) ->
               In t (Xapian.termlist (doc self2))).
Proof.
  rewrite gen_terms_step. eexists; eexists.
  split; [reflexivity|]. rewrite gen_terms_step.
  split; [reflexivity|]. rewrite !termlist_set_terms.
  repeat split; intros t Ht; rewrite In_insert_all; tauto.
Qed.

(** ** C10: the getters of the single-valued fields *)

Lemma get_terms_first_under (p : string) (self : Document) :
  ((forall t, In t (Xapian.termlist (doc self)) -> String.prefix p t = false) ->
   _get_terms (Some p) self = Ok []) /\
  (forall l1 v l2,
     Xapian.termlist (doc self) = (l1 ++ (p ++ v)%string :: l2)%list ->
     (forall t, In t l1 -> String.prefix p t = false) ->
     exists rest, _get_terms (Some p) self = Ok (v :: rest)).
Proof.
  rewrite get_terms_under. split.
  - intros H. now rewrite (filter_none _ _ H).
  - intros l1 v l2 -> H.
    rewrite filter_app, (filter_none _ _ H). cbn [filter app].
    rewrite prefix_app. cbn [map]. rewrite slice_from_app.
    eexists; reflexivity.
Qed.

Lemma getter_first_or_empty (name p : string) (getter : Document -> res string) :
  _find_prefix name = Some p ->
  (forall self, getter self
                = res_bind (_get_terms (Some p) self)
                    (fun l => match l with v :: _ => Ok v | [] => Ok "" end)) ->
  first_or_empty name getter.
Proof.
  intros Hname Hget. exists p. split; [exact Hname|].
  intros self. rewrite Hget.
  destruct (get_terms_first_under p self) as [Hnone Hfirst]. split.
  - intros H. now rewrite (Hnone H).
  - intros l1 v l2 El H1.
    destruct (Hfirst l1 v l2 El H1) as [rest ->]. reflexivity.
Qed.

(** C10.  [get_url], [get_title], [get_authors] and [get_year] return the
    empty string when the document has no term under the prefix of url,
    fulltitle, fullauthors or year, and otherwise the value of the first
    term under it, that is the term without the prefix. *)
Theorem getters_first_or_empty :
  first_or_empty "url" get_url /\
  first_or_empty "fulltitle" get_title /\
  first_or_empty "fullauthors" get_authors /\
  first_or_empty "year" get_year.
Proof.
  repeat split.
  - now apply (getter_first_or_empty "url" "U").
  - now apply (getter_first_or_empty "fulltitle" "XTITLE:").
  - now apply (getter_first_or_empty "fullauthors" "XAUTHORS:").
  - now apply (getter_first_or_empty "year" "Y").
Qed.

Lemma getters_first_or_empty_witness :
  get_url (sample_doc ["Kphysics"; "Y2012"] 1) = Ok "" /\
  get_year (sample_doc ["Kphysics"; "Y2012"; "Y2013"] 1) = Ok "2012".
Proof.
  destruct getters_first_or_empty as [[pu [Hu Hurl]] [_ [_ [py [Hy Hyear]]]]].
  injection Hu as <-. injection Hy as <-.
  split.
  - apply (proj1 (Hurl (sample_doc ["Kphysics"; "Y2012"] 1))).
    simpl. intros t [<- | [<- | []]]; reflexivity.
  - apply (proj2 (Hyear (sample_doc ["Kphysics"; "Y2012"; "Y2013"] 1))
             ["Kphysics"] "2012" ["Y2013"]).
    + reflexivity.
    + simpl. intros t [<- | []]. reflexivity.
Defined.

(** ** The terms stay as the engine keeps them *)

Lemma fresh_well_formed (db : Database) (d : Document) :
  Document_init db None = Ok d -> well_formed d.
Proof.
  rewrite Document_init_fresh. intros [= <-].
  sorted_terms.
Qed.

Lemma add_term_well_formed (o : option string) (v : string) (self : Document) :
  well_formed self -> well_formed (snd (_add_term o v self)).
Proof.
  unfold well_formed, _add_term, Xapian.add_term. intros H.
  destruct (String.eqb _ _); simpl; [exact H | now apply sorted_insert_term].
Qed.

Lemma remove_term_well_formed (o : option string) (v : string)
      (self : Document) :
  well_formed self -> well_formed (snd (_remove_term o v self)).
Proof.
  unfold well_formed, _remove_term, Xapian.remove_term. intros H.
  destruct (Xapian.has_term _ _); simpl; [now apply sorted_filter | exact H].
Qed.

Lemma gen_terms_well_formed (db : Database) (prefix : option string)
      (text : string) (self : Document) :
  well_formed self -> well_formed (snd (_gen_terms db prefix text self)).
Proof.
  rewrite gen_terms_step. unfold well_formed. simpl.
  apply sorted_insert_all.
Qed.

(** * Properties of the rest of the code *)

(** ** What the getters read *)

Lemma In_under (p v : string) (l : list string) :
  In v (map (slice_from (String.length p)) (filter (String.prefix p) l))
  <-> In (p ++ v) l.
Proof.
  rewrite in_map_iff. split.
  - intros [t [E Ht]]. apply filter_In in Ht. destruct Ht as [Hin Hp].
    apply prefix_slice in Hp. rewrite E in Hp. now subst t.
  - intros H. exists (p ++ v). split; [apply slice_from_app|].
    apply filter_In. split; [exact H | apply prefix_app].
Qed.

Lemma prefix_other_head (c d : ascii) (p q t : string) :
  c <> d -> String.prefix (String c p) t = true ->
  String.prefix (String d q) t = false.
Proof.
  intros Hcd H. apply prefix_slice in H. rewrite <- H.
  apply prefix_head. congruence.
Qed.

Lemma filter_filter_implied (f g : string -> bool) (l : list string) :
  (forall x, f x = true -> g x = true) ->
  filter f (filter g l) = filter f l.
Proof.
  intros H. rewrite filter_filter_and. apply filter_ext.
  intros x. destruct (f x) eqn:E; [now rewrite (H x E) | apply andb_false_r].
Qed.

(** The terms under a prefix after the terms under a prefix with another
    first character were replaced by one. *)
Lemma filter_replace_other (c d : ascii) (p q v : string) (l : list string) :
  c <> d ->
  filter (String.prefix (String d q))
    (Xapian.insert_term (String c p ++ v)
       (filter (fun t => negb (String.prefix (String c p) t)) l))
  = filter (String.prefix (String d q)) l.
Proof.
  intros Hcd.
  rewrite filter_insert_other by (apply prefix_head; congruence).
  apply filter_filter_implied. intros x Hx.
  apply negb_true_iff. apply (prefix_other_head d c q p x); congruence.
Qed.

Lemma replace_under_terms (p v : string) (self : Document) :
  p <> "" -> well_formed self ->
  bind (reads (_get_terms (Some p)))
       (fun l => bind (for_each l (fun term => _remove_term (Some p) term))
                      (fun _ => _add_term (Some p) v)) self
  = (Ok tt, set_terms self
              (Xapian.insert_term (p ++ v)
                 (filter (fun t => negb (String.prefix p t))
                         (Xapian.termlist (doc self))))).
Proof.
  intros Hp Hwf.
  rewrite remove_under_then by now apply sorted_NoDup.
  rewrite add_term_step by exact Hp.
  reflexivity.
Qed.

Lemma get_sources_loop_ext (a b : Document) (l : list string)
      (acc : list (string * option string)) :
  (forall source, get_source_id source a = get_source_id source b) ->
  get_sources_loop a l acc = get_sources_loop b l acc.
Proof.
  intros H. revert acc; induction l as [|s l IH]; intros acc; simpl.
  - reflexivity.
  - destruct (truthy s); simpl; [|reflexivity].
    rewrite (H s). destruct (get_source_id s b); simpl; [apply IH | reflexivity].
Qed.

Lemma same_fields_from_under (a b : Document) :
  (forall q, same_under (String "X" q) a b) ->
  same_under "K" a b -> same_under "P" a b ->
  same_fields a b.
Proof.
  unfold same_under. intros HX HK HP.
  assert (Hid : forall source, get_source_id source a = get_source_id source b).
  { intros source. unfold get_source_id.
    change (_make_source_prefix source)
      with (String "X" (upper source ++ ":")).
    now rewrite HX. }
  unfold same_fields, get_title, get_authors, get_tags, get_paths, get_sources.
  change (_find_prefix "fulltitle") with (Some "XTITLE:").
  change (_find_prefix "fullauthors") with (Some "XAUTHORS:").
  change (_find_prefix "tag") with (Some "K").
  change (_find_prefix "file") with (Some "P").
  change (_find_prefix "source") with (Some "XSOURCE:").
  rewrite !HX, HK, HP. repeat split; try exact Hid.
  destruct (_get_terms (Some "XSOURCE:") b) as [l|e]; simpl; [|reflexivity].
  now apply get_sources_loop_ext.
Qed.

Lemma same_under_replace_other (c d : ascii) (p q v : string)
      (self : Document) :
  c <> d ->
  same_under (String d q)
    (set_terms self
       (Xapian.insert_term (String c p ++ v)
          (filter (fun t => negb (String.prefix (String c p) t))
                  (Xapian.termlist (doc self)))))
    self.
Proof.
  intros Hcd. unfold same_under. rewrite !get_terms_under.
  rewrite termlist_set_terms. now rewrite filter_replace_other.
Qed.

(** ** Setting and getting a single-valued field *)

Lemma get_of_single (p v : string) (l : list string) (self : Document) :
  filter (String.prefix p) l = [p ++ v] ->
  _get_terms (Some p) (set_terms self l) = Ok [v].
Proof.
  intros H. rewrite get_terms_under, termlist_set_terms, H. simpl.
  now rewrite slice_from_app.
Qed.

(** X1.  A getter returns what the setter of its field was last given. *)
Theorem getters_return_what_was_set
        (db : Database) (self : Document) (v : string) :
  well_formed self -> lowercase_words (term_gen db) ->
  returns_with (set_url v) self (fun self' => get_url self' = Ok v) /\
  returns_with (set_year v) self (fun self' => get_year self' = Ok v) /\
  returns_with (set_title db v) self (fun self' => get_title self' = Ok v) /\
  returns_with (set_authors db v) self (fun self' => get_authors self' = Ok v).
Proof.
  intros Hwf Hlow. repeat split.
  - destruct (replace_under "U" v self) as [l [E [_ F]]];
      [discriminate | exact Hwf |].
    exists tt, (set_terms self l). split; [exact E|].
    unfold get_url. change (_find_prefix "url") with (Some "U").
    now rewrite (get_of_single "U" v l self F).
  - destruct (replace_under "Y" v self) as [l [E [_ F]]];
      [discriminate | exact Hwf |].
    exists tt, (set_terms self l). split; [exact E|].
    unfold get_year. change (_find_prefix "year") with (Some "Y").
    now rewrite (get_of_single "Y" v l self F).
  - destruct (replace_dual db "S"%char "" "ZS" "TITLE:" v self)
      as [l [E [_ F]]]; [discriminate | exact Hlow | exact Hwf |].
    exists tt, (set_terms self l). split; [exact E|].
    unfold get_title. change (_find_prefix "fulltitle") with (Some "XTITLE:").
    now rewrite (get_of_single "XTITLE:" v l self F).
  - destruct (replace_dual db "A"%char "" "ZA" "AUTHORS:" v self)
      as [l [E [_ F]]]; [discriminate | exact Hlow | exact Hwf |].
    exists tt, (set_terms self l). split; [exact E|].
    unfold get_authors.
    change (_find_prefix "fullauthors") with (Some "XAUTHORS:").
    now rewrite (get_of_single "XAUTHORS:" v l self F).
Qed.

Lemma getters_return_what_was_set_witness :
  let db := sample_db [] 0 in
  let self := sample_doc ["Kphysics"; "Uhttp://old"; "XTITLE:Old"; "Y1999"] 1 in
  returns_with (set_url "Waves II") self
               (fun self' => get_url self' = Ok "Waves II") /\
  returns_with (set_year "Waves II") self
               (fun self' => get_year self' = Ok "Waves II") /\
  returns_with (set_title db "Waves II") self
               (fun self' => get_title self' = Ok "Waves II") /\
  returns_with (set_authors db "Waves II") self
               (fun self' => get_authors self' = Ok "Waves II").
Proof.
  apply (getters_return_what_was_set (sample_db [] 0)
           (sample_doc ["Kphysics"; "Uhttp://old"; "XTITLE:Old"; "Y1999"] 1)
           "Waves II").
  - sorted_terms.
  - exact sample_term_gen_lowercase.
Defined.

(** X2.  [set_url] and [set_year] change nothing that another getter
    reads: after [set_url] the year, title, authors, tags, paths and sources
    of the document are as before, and after [set_year] its url, title,
    authors, tags, paths and sources are. *)
Theorem url_and_year_setters_leave_other_fields
        (self : Document) (v : string) :
  well_formed self ->
  returns_with (set_url v) self
    (fun self' => get_year self' = get_year self /\ same_fields self' self) /\
  returns_with (set_year v) self
    (fun self' => get_url self' = get_url self /\ same_fields self' self).
Proof.
  intros Hwf. split.
  - exists tt. eexists. split.
    + apply (replace_under_terms "U" v self); [discriminate | exact Hwf].
    + split.
      * unfold get_year. change (_find_prefix "year") with (Some "Y").
        now rewrite (same_under_replace_other "U" "Y" "" "" v self).
      * apply same_fields_from_under; intros;
          now apply (same_under_replace_other "U" _ "" _ v self).
  - exists tt. eexists. split.
    + apply (replace_under_terms "Y" v self); [discriminate | exact Hwf].
    + split.
      * unfold get_url. change (_find_prefix "url") with (Some "U").
        now rewrite (same_under_replace_other "Y" "U" "" "" v self).
      * apply same_fields_from_under; intros;
          now apply (same_under_replace_other "Y" _ "" _ v self).
Qed.

Lemma url_and_year_setters_leave_other_fields_witness :
  let self := sample_doc ["Kphysics"; "Uhttp://old"; "XDOI:10.1000/182";
                          "XSOURCE:doi"; "XTITLE:Old"; "Y1999"] 1 in
  returns_with (set_url "http://new") self
    (fun self' => get_year self' = get_year self /\ same_fields self' self) /\
  returns_with (set_year "2012") self
    (fun self' => get_url self' = get_url self /\ same_fields self' self).
Proof.
  split.
  - apply (proj1 (url_and_year_setters_leave_other_fields
             (sample_doc ["Kphysics"; "Uhttp://old"; "XDOI:10.1000/182";
                          "XSOURCE:doi"; "XTITLE:Old"; "Y1999"] 1)
             "http://new" ltac:(sorted_terms))).
  - apply (proj2 (url_and_year_setters_leave_other_fields
             (sample_doc ["Kphysics"; "Uhttp://old"; "XDOI:10.1000/182";
                          "XSOURCE:doi"; "XTITLE:Old"; "Y1999"] 1)
             "2012" ltac:(sorted_terms))).
Defined.

(** ** What [set_title] and [set_authors] replace, and what they leave *)

Lemma replace_dual_terms (db : Database) (pt zp pf v : string)
      (self : Document) :
  pf <> "" -> well_formed self ->
  bind (reads (_get_terms (Some pt)))
    (fun l => bind (for_each l (fun term => _remove_term (Some pt) term))
    (fun _ => bind (reads (_get_terms (Some zp)))
    (fun l => bind (for_each l (fun term => _remove_term (Some zp) term))
    (fun _ => bind (reads (_get_terms (Some pf)))
    (fun l => bind (for_each l (fun term => _remove_term (Some pf) term))
    (fun _ => bind (_gen_terms db (Some pt) v)
    (fun _ => _add_term (Some pf) v))))))) self
  = (Ok tt, set_terms self
      (Xapian.insert_term (pf ++ v)
         (fold_left (fun l t => Xapian.insert_term t l)
            (generated_terms db (Some pt) v)
            (filter (fun t => negb (String.prefix pf t))
               (filter (fun t => negb (String.prefix zp t))
                  (filter (fun t => negb (String.prefix pt t))
                     (Xapian.termlist (doc self)))))))).
Proof.
  intros Hpf Hwf.
  rewrite remove_under_then by now apply sorted_NoDup.
  rewrite remove_under_then
    by (rewrite termlist_set_terms; now apply sorted_NoDup, sorted_filter).
  rewrite remove_under_then
    by (rewrite !termlist_set_terms;
        now apply sorted_NoDup, sorted_filter, sorted_filter).
  unfold bind. rewrite gen_terms_step.
  rewrite add_term_step by exact Hpf.
  reflexivity.
Qed.

Lemma lowercase_not_under_upper (c : ascii) (q w : string) :
  lower_ascii c <> c -> lower w = w -> String.prefix (String c q) w = false.
Proof.
  intros Hc. destruct w as [|a w]; [reflexivity|].
  simpl. intros [= Ha _]. apply prefix_head. congruence.
Qed.

(** Under a lower-casing term generator, the terms generated under a
    prefix that starts with [c] and that lie under a prefix starting with an
    upper-case [d] other than "Z" have [d = c]. *)
Lemma generated_not_under_other (db : Database) (c d : ascii)
      (pt text q t : string) :
  lowercase_words (term_gen db) ->
  d <> c -> d <> "Z"%char -> lower_ascii d <> d ->
  In t (generated_terms db (Some (String c pt)) text) ->
  String.prefix (String d q) t = false.
Proof.
  intros Hlow Hc Hz Hd. unfold generated_terms. cbn [truthy String.eqb negb].
  intros H. apply in_app_or in H.
  destruct H as [H | H]; apply In_index_terms in H;
    destruct H as [[w [Hw ->]] | [st ->]].
  - now apply prefix_head.
  - now apply prefix_head.
  - apply lowercase_not_under_upper; [exact Hd | now apply (Hlow text)].
  - now apply prefix_head.
Qed.

Lemma generated_under_own (db : Database) (c : ascii) (pt text t : string) :
  lowercase_words (term_gen db) ->
  c <> "Z"%char -> lower_ascii c <> c ->
  In t (generated_terms db (Some (String c pt)) text) ->
  String.prefix (String c pt) t = true ->
  exists w, In w (Xapian.words (term_gen db) text) /\ t = String c pt ++ w.
Proof.
  intros Hlow Hz Hc. unfold generated_terms. cbn [truthy String.eqb negb].
  intros H Hp. apply in_app_or in H.
  destruct H as [H | H]; apply In_index_terms in H;
    destruct H as [[w [Hw ->]] | [st ->]].
  - now exists w.
  - cbn [append] in Hp. rewrite prefix_head in Hp by exact Hz. discriminate.
  - rewrite lowercase_not_under_upper in Hp;
      [discriminate | exact Hc | now apply (Hlow text)].
  - cbn [append] in Hp. rewrite prefix_head in Hp by exact Hz. discriminate.
Qed.

Lemma words_generated (db : Database) (pt text w : string) :
  pt <> "" -> In w (Xapian.words (term_gen db) text) ->
  In (pt ++ w) (generated_terms db (Some pt) text).
Proof.
  intros Hpt Hw. unfold generated_terms.
  destruct pt as [|c pt]; [now elim Hpt|]. cbn [truthy String.eqb negb].
  apply in_or_app. left. unfold Xapian.index_terms.
  apply in_flat_map. exists w. split; [exact Hw | now left].
Qed.

Lemma dual_setter_replaces (db : Database) (c : ascii) (pt zp q v : string)
      (self : Document) :
  c <> "X"%char -> c <> "Z"%char -> lower_ascii c <> c ->
  lowercase_words (term_gen db) ->
  searchable_copy_replaced db (String c pt) zp (String "X" q) v self
    (set_terms self
      (Xapian.insert_term (String "X" q ++ v)
         (fold_left (fun l t => Xapian.insert_term t l)
            (generated_terms db (Some (String c pt)) v)
            (filter (fun t => negb (String.prefix (String "X" q) t))
               (filter (fun t => negb (String.prefix zp t))
                  (filter (fun t => negb (String.prefix (String c pt) t))
                     (Xapian.termlist (doc self)))))))).
Proof.
  intros Hx Hz Hc Hlow. unfold searchable_copy_replaced.
  rewrite termlist_set_terms. split.
  - intros t. rewrite In_insert_term, In_insert_all. split.
    + intros [[-> | [Hg | Hold]] Hp].
      * cbn [append] in Hp. rewrite prefix_head in Hp by exact Hx.
        discriminate.
      * now apply (generated_under_own db c pt v t).
      * apply filter_In in Hold. destruct Hold as [Hold _].
        apply filter_In in Hold. destruct Hold as [Hold _].
        apply filter_In in Hold. destruct Hold as [_ Hold].
        rewrite Hp in Hold. discriminate.
    + intros [w [Hw ->]]. split; [|apply prefix_app].
      right. left. apply words_generated; [discriminate | exact Hw].
  - intros t Ht Hpt Hzp Hpf. apply In_insert_term. right.
    apply In_insert_all. right.
    repeat (apply filter_In; split); try exact Ht;
      now apply negb_true_iff.
Qed.

(** X3.  [set_title] and [set_authors] replace the searchable copy of the
    field under "S" and "A", and leave every term in place that is not
    under "S", "ZS", "XTITLE:" (for the title) or "A", "ZA", "XAUTHORS:"
    (for the authors): the terms without prefix that an earlier title or
    author list generated stay in the document. *)
Theorem title_and_authors_setters_replace_searchable_copy
        (db : Database) (self : Document) (v : string) :
  well_formed self -> lowercase_words (term_gen db) ->
  returns_with (set_title db v) self
    (searchable_copy_replaced db "S" "ZS" "XTITLE:" v self) /\
  returns_with (set_authors db v) self
    (searchable_copy_replaced db "A" "ZA" "XAUTHORS:" v self).
Proof.
  intros Hwf Hlow. split.
  - exists tt. eexists. split.
    + apply (replace_dual_terms db "S" "ZS" "XTITLE:" v self);
        [discriminate | exact Hwf].
    + apply (dual_setter_replaces db "S"%char "" "ZS" "TITLE:" v self);
        try exact Hlow; discriminate.
  - exists tt. eexists. split.
    + apply (replace_dual_terms db "A" "ZA" "XAUTHORS:" v self);
        [discriminate | exact Hwf].
    + apply (dual_setter_replaces db "A"%char "" "ZA" "AUTHORS:" v self);
        try exact Hlow; discriminate.
Qed.

Lemma title_and_authors_setters_replace_searchable_copy_witness :
  let db := sample_db [] 0 in
  let self := sample_doc ["Kphysics"; "Sold"; "Stitle"; "XTITLE:Old title";
                          "ZSold"; "ZStitle"; "Zold"; "Ztitle"; "old";
                          "title"] 1 in
  returns_with (set_title db "New waves") self
    (searchable_copy_replaced db "S" "ZS" "XTITLE:" "New waves" self) /\
  returns_with (set_authors db "New waves") self
    (searchable_copy_replaced db "A" "ZA" "XAUTHORS:" "New waves" self).
Proof.
  apply (title_and_authors_setters_replace_searchable_copy (sample_db [] 0)
           (sample_doc ["Kphysics"; "Sold"; "Stitle"; "XTITLE:Old title";
                        "ZSold"; "ZStitle"; "Zold"; "Ztitle"; "old";
                        "title"] 1) "New waves").
  - sorted_terms.
  - exact sample_term_gen_lowercase.
Defined.

(** The stale terms of the sample: after the title "Old title" is replaced
    by "New waves", the words of the old title are still indexed. *)
Lemma set_title_leaves_old_words :
  snd (set_title (sample_db [] 0) "New waves"
         (sample_doc ["Kphysics"; "Sold"; "Stitle"; "XTITLE:Old title";
                      "ZSold"; "ZStitle"; "Zold"; "Ztitle"; "old";
                      "title"] 1))
  = sample_doc ["Kphysics"; "Snew"; "Swaves"; "XTITLE:New waves";
                "ZSnew"; "ZSwaves"; "Znew"; "Zold"; "Ztitle"; "Zwaves";
                "new"; "old"; "title"; "waves"] 1.
Proof. reflexivity. Qed.

Lemma same_under_dual (db : Database) (pt zp pf v qq : string)
      (self : Document) :
  String.prefix qq (pf ++ v) = false ->
  (forall t, In t (generated_terms db (Some pt) v) ->
             String.prefix qq t = false) ->
  (forall x, String.prefix qq x = true ->
             String.prefix pf x = false /\ String.prefix zp x = false /\
             String.prefix pt x = false) ->
  same_under qq
    (set_terms self
      (Xapian.insert_term (pf ++ v)
         (fold_left (fun l t => Xapian.insert_term t l)
            (generated_terms db (Some pt) v)
            (filter (fun t => negb (String.prefix pf t))
               (filter (fun t => negb (String.prefix zp t))
                  (filter (fun t => negb (String.prefix pt t))
                     (Xapian.termlist (doc self))))))))
    self.
Proof.
  intros Hnew Hgen Hold. unfold same_under.
  rewrite !get_terms_under, termlist_set_terms.
  rewrite filter_insert_other by exact Hnew.
  rewrite filter_insert_all_other by exact Hgen.
  rewrite !filter_filter_implied; [reflexivity | | |];
    intros x Hx; apply negb_true_iff; now apply Hold.
Qed.

(** A term under one of two prefixes that part ways is not under the other. *)
Ltac other_prefix :=
  let H := fresh in
  intros H; apply prefix_slice in H; rewrite <- H; reflexivity.

Lemma same_plain_fields_from_under (a b : Document) :
  same_under "U" a b -> same_under "Y" a b -> same_under "K" a b ->
  same_under "P" a b -> same_plain_fields a b.
Proof.
  unfold same_under, same_plain_fields, get_url, get_year, get_tags, get_paths.
  change (_find_prefix "url") with (Some "U").
  change (_find_prefix "year") with (Some "Y").
  change (_find_prefix "tag") with (Some "K").
  change (_find_prefix "file") with (Some "P").
  intros -> -> -> ->. repeat split.
Qed.

Lemma same_under_dual_upper (db : Database) (c d : ascii) (pt zp q v : string)
      (self : Document) :
  lowercase_words (term_gen db) ->
  d <> c -> d <> "Z"%char -> d <> "X"%char -> lower_ascii d <> d ->
  same_under (String d "")
    (set_terms self
      (Xapian.insert_term (String "X" q ++ v)
         (fold_left (fun l t => Xapian.insert_term t l)
            (generated_terms db (Some (String c pt)) v)
            (filter (fun t => negb (String.prefix (String "X" q) t))
               (filter (fun t => negb (String.prefix (String "Z" zp) t))
                  (filter (fun t => negb (String.prefix (String c pt) t))
                     (Xapian.termlist (doc self))))))))
    self.
Proof.
  intros Hlow Hc Hz Hx Hd. apply same_under_dual.
  - now apply prefix_head.
  - intros t Ht. now apply (generated_not_under_other db c d pt v "" t).
  - intros x Hp. repeat split.
    + apply (prefix_other_head d "X" "" q x); congruence.
    + apply (prefix_other_head d "Z" "" zp x); congruence.
    + apply (prefix_other_head d c "" pt x); congruence.
Qed.

(** X4.  [set_title] changes nothing that the getters of authors, url,
    year, tags and paths read, and [set_authors] nothing that the getters
    of title, url, year, tags and paths read. *)
Theorem title_and_authors_setters_leave_other_fields
        (db : Database) (self : Document) (v : string) :
  well_formed self -> lowercase_words (term_gen db) ->
  returns_with (set_title db v) self
    (fun self' => get_authors self' = get_authors self /\
                  same_plain_fields self' self) /\
  returns_with (set_authors db v) self
    (fun self' => get_title self' = get_title self /\
                  same_plain_fields self' self).
Proof.
  intros Hwf Hlow. split.
  - exists tt. eexists. split.
    + apply (replace_dual_terms db "S" "ZS" "XTITLE:" v self);
        [discriminate | exact Hwf].
    + split.
      * unfold get_authors.
        change (_find_prefix "fullauthors") with (Some "XAUTHORS:").
        rewrite (same_under_dual db "S" "ZS" "XTITLE:" v "XAUTHORS:" self);
          [reflexivity | reflexivity | |].
        -- intros t Ht.
           now apply (generated_not_under_X db "S"%char "" v "AUTHORS:" t).
        -- intros x Hx. repeat split; revert Hx; other_prefix.
      * apply same_plain_fields_from_under;
          apply (same_under_dual_upper db "S"%char _ "" "S" "TITLE:");
          try exact Hlow; try reflexivity; discriminate.
  - exists tt. eexists. split.
    + apply (replace_dual_terms db "A" "ZA" "XAUTHORS:" v self);
        [discriminate | exact Hwf].
    + split.
      * unfold get_title.
        change (_find_prefix "fulltitle") with (Some "XTITLE:").
        rewrite (same_under_dual db "A" "ZA" "XAUTHORS:" v "XTITLE:" self);
          [reflexivity | reflexivity | |].
        -- intros t Ht.
           now apply (generated_not_under_X db "A"%char "" v "TITLE:" t).
        -- intros x Hx. repeat split; revert Hx; other_prefix.
      * apply same_plain_fields_from_under;
          apply (same_under_dual_upper db "A"%char _ "" "A" "AUTHORS:");
          try exact Hlow; try reflexivity; discriminate.
Qed.

Lemma title_and_authors_setters_leave_other_fields_witness :
  let db := sample_db [] 0 in
  let self := sample_doc ["Kphysics"; "Pdoe/2012.pdf"; "Uhttp://old";
                          "XAUTHORS:J. Doe"; "XTITLE:Old"; "Y1999"] 1 in
  returns_with (set_title db "New waves") self
    (fun self' => get_authors self' = get_authors self /\
                  same_plain_fields self' self) /\
  returns_with (set_authors db "New waves") self
    (fun self' => get_title self' = get_title self /\
                  same_plain_fields self' self).
Proof.
  apply (title_and_authors_setters_leave_other_fields (sample_db [] 0)
           (sample_doc ["Kphysics"; "Pdoe/2012.pdf"; "Uhttp://old";
                        "XAUTHORS:J. Doe"; "XTITLE:Old"; "Y1999"] 1)
           "New waves").
  - sorted_terms.
  - exact sample_term_gen_lowercase.
Defined.

(** ** Tags *)

Lemma append_inj (p a b : string) : p ++ a = p ++ b -> a = b.
Proof. induction p as [|c p IH]; simpl; [tauto | intros [= H]; auto]. Qed.

Lemma In_map_append (p t : string) (ts : list string) :
  In (p ++ t) (map (append p) ts) <-> In t ts.
Proof.
  rewrite in_map_iff. split.
  - intros [x [E Hx]]. apply append_inj in E. now subst.
  - intros H. now exists t.
Qed.

Lemma NoDup_map_append (p : string) (ts : list string) :
  NoDup ts -> NoDup (map (append p) ts).
Proof.
  induction 1 as [|t ts Ht Hts IH]; simpl; constructor; [|exact IH].
  now rewrite In_map_append.
Qed.

Lemma map_slice_append (p : string) (ts : list string) :
  map (slice_from (String.length p)) (map (append p) ts) = ts.
Proof.
  induction ts as [|t ts IH]; simpl; [reflexivity|].
  now rewrite slice_from_app, IH.
Qed.

(** [for v in vs: self._add_term(prefix, v)] *)
Lemma for_each_add_terms (p : string) (vs : list string) (self : Document) :
  p <> "" ->
  for_each vs (fun v => _add_term (Some p) v) self
  = (Ok tt, set_terms self
              (fold_left (fun l t => Xapian.insert_term t l)
                         (map (append p) vs) (Xapian.termlist (doc self)))).
Proof.
  intros Hp. revert self; induction vs as [|v vs IH]; intros self.
  - simpl. unfold ret. now rewrite set_terms_same.
  - cbn [for_each map fold_left]. unfold bind.
    rewrite add_term_step by exact Hp. rewrite IH.
    reflexivity.
Qed.

(** [for v in vs: self._remove_term(prefix, v)] over distinct values the
    document has under the prefix. *)
Lemma for_each_remove_values (p : string) (vs : list string) (self : Document) :
  NoDup vs ->
  (forall v, In v vs -> In (p ++ v) (Xapian.termlist (doc self))) ->
  for_each vs (fun v => _remove_term (Some p) v) self
  = (Ok tt, set_terms self
              (filter (fun x => negb (existsb (String.eqb x)
                                        (map (append p) vs)))
                      (Xapian.termlist (doc self)))).
Proof.
  intros Hnd Hin.
  rewrite <- (map_slice_append p vs) at 1.
  apply for_each_remove_terms.
  - intros t Ht. apply in_map_iff in Ht. destruct Ht as [v [<- _]].
    apply prefix_app.
  - now apply NoDup_map_append.
  - intros t Ht. apply in_map_iff in Ht. destruct Ht as [v [<- Hv]].
    now apply Hin.
Qed.

Lemma for_each_app {S A} (a b : list A) (body : A -> M S unit) (s : S) :
  for_each (a ++ b) body s = bind (for_each a body) (fun _ => for_each b body) s.
Proof.
  revert s; induction a as [|x a IH]; intros s; simpl.
  - reflexivity.
  - unfold bind in *. destruct (body x s) as [[u|e] s']; [apply IH | reflexivity].
Qed.

Lemma existsb_eqb_In (x : string) (l : list string) :
  existsb (String.eqb x) l = true <-> In x l.
Proof. exact (has_term_In x l). Qed.

Lemma In_filter_not_among (x : string) (ts l : list string) :
  In x (filter (fun y => negb (existsb (String.eqb y) ts)) l)
  <-> In x l /\ ~ In x ts.
Proof.
  rewrite filter_In, negb_true_iff.
  split; intros [H1 H2]; (split; [exact H1|]).
  - intros Hin. apply existsb_eqb_In in Hin. congruence.
  - apply not_true_is_false. now rewrite existsb_eqb_In.
Qed.

Lemma insert_present (t : string) (l : list string) :
  StronglySorted term_lt l -> In t l -> Xapian.insert_term t l = l.
Proof.
  induction 1 as [|x r Hr IH Hx]; simpl; [intros []|].
  intros Hin. destruct (String.compare t x) eqn:E; [reflexivity| |].
  - exfalso. destruct Hin as [-> | Hin].
    + rewrite compare_refl in E. discriminate.
    + rewrite Forall_forall in Hx.
      exact (term_lt_irrefl t (term_lt_trans t x t E (Hx t Hin))).
  - f_equal. apply IH. destruct Hin as [-> | Hin]; [|exact Hin].
    rewrite compare_refl in E. discriminate.
Qed.

Lemma insert_all_present (ts l : list string) :
  StronglySorted term_lt l -> (forall t, In t ts -> In t l) ->
  fold_left (fun l t => Xapian.insert_term t l) ts l = l.
Proof.
  intros Hs. induction ts as [|t ts IH]; intros H; simpl; [reflexivity|].
  rewrite insert_present by (auto; apply H; now left).
  apply IH. intros x Hx. apply H. now right.
Qed.

(** X5.  [add_tags] returns; afterwards the terms of the document are the
    old ones and "K" followed by each tag, so [get_tags] lists the old tags
    and the added ones. *)
Theorem add_tags_adds (self : Document) (tags : list string) :
  exists self' old new,
    add_tags tags self = (Ok tt, self') /\
    get_tags self = Ok old /\ get_tags self' = Ok new /\
    (forall t, In t new <-> In t tags \/ In t old) /\
    (forall x, In x (Xapian.termlist (doc self'))
               <-> (exists t, In t tags /\ x = "K" ++ t)
                   \/ In x (Xapian.termlist (doc self))).
Proof.
  unfold add_tags, get_tags, _add_tag.
  change (_find_prefix "tag") with (Some "K").
  rewrite for_each_add_terms by discriminate.
  do 3 eexists. split; [reflexivity|].
  rewrite !get_terms_under, termlist_set_terms.
  split; [reflexivity|]. split; [reflexivity|]. split.
  - intros t. rewrite !In_under, In_insert_all, In_map_append. tauto.
  - intros x. rewrite In_insert_all, in_map_iff.
    split; (intros [[t H] | H]; [left; exists t | now right]); intuition.
Qed.

(** X6.  Adding tags the document already has leaves it as it was. *)
Theorem add_tags_present_is_noop (self : Document) (tags : list string) :
  well_formed self ->
  (forall t, In t tags -> In ("K" ++ t) (Xapian.termlist (doc self))) ->
  add_tags tags self = (Ok tt, self).
Proof.
  intros Hwf Hin. unfold add_tags, _add_tag.
  change (_find_prefix "tag") with (Some "K").
  rewrite for_each_add_terms by discriminate.
  rewrite insert_all_present; [now rewrite set_terms_same | exact Hwf |].
  intros x Hx. apply in_map_iff in Hx. destruct Hx as [t [<- Ht]].
  now apply Hin.
Qed.

Lemma add_tags_present_is_noop_witness :
  add_tags ["physics"; "waves"]
           (sample_doc ["Kphysics"; "Kwaves"; "Q1"] 1)
  = (Ok tt, sample_doc ["Kphysics"; "Kwaves"; "Q1"] 1).
Proof.
  apply (add_tags_present_is_noop
           (sample_doc ["Kphysics"; "Kwaves"; "Q1"] 1) ["physics"; "waves"]).
  - sorted_terms.
  - simpl. intros t [<- | [<- | []]]; tauto.
Defined.

(** X7.  [remove_tags] of distinct tags the document has returns and takes
    exactly their terms away. *)
Theorem remove_tags_removes (self : Document) (tags : list string) :
  NoDup tags ->
  (forall t, In t tags -> In ("K" ++ t) (Xapian.termlist (doc self))) ->
  exists self' old new,
    remove_tags tags self = (Ok tt, self') /\
    get_tags self = Ok old /\ get_tags self' = Ok new /\
    (forall t, In t new <-> In t old /\ ~ In t tags) /\
    (forall x, In x (Xapian.termlist (doc self'))
               <-> In x (Xapian.termlist (doc self))
                   /\ ~ exists t, In t tags /\ x = "K" ++ t).
Proof.
  intros Hnd Hin.
  unfold remove_tags, get_tags, _remove_tag.
  change (_find_prefix "tag") with (Some "K").
  rewrite (for_each_remove_values "K" tags self Hnd Hin).
  do 3 eexists. split; [reflexivity|].
  rewrite !get_terms_under, termlist_set_terms.
  split; [reflexivity|]. split; [reflexivity|]. split.
  - intros t. rewrite !In_under, In_filter_not_among, In_map_append. tauto.
  - intros x. rewrite In_filter_not_among, in_map_iff.
    split; intros [H1 H2]; (split; [exact H1|]);
      intros [t Ht]; apply H2; exists t; intuition.
Qed.

Lemma remove_tags_removes_witness :
  exists self' old new,
    remove_tags ["waves"] (sample_doc ["Kphysics"; "Kwaves"; "Q1"] 1)
    = (Ok tt, self') /\
    get_tags (sample_doc ["Kphysics"; "Kwaves"; "Q1"] 1) = Ok old /\
    get_tags self' = Ok new /\
    (forall t, In t new <-> In t old /\ ~ In t ["waves"]) /\
    (forall x, In x (Xapian.termlist (doc self'))
               <-> In x ["Kphysics"; "Kwaves"; "Q1"]
                   /\ ~ exists t, In t ["waves"] /\ x = "K" ++ t).
Proof.
  apply (remove_tags_removes (sample_doc ["Kphysics"; "Kwaves"; "Q1"] 1)
           ["waves"]).
  - repeat constructor. simpl. tauto.
  - simpl. intros t [<- | []]. tauto.
Defined.

(** X8.  [remove_tags] is not all-or-nothing: at the first tag the document
    does not have (or no longer has, when a tag is listed twice) it raises
    [InvalidArgumentError], and the tags before it are gone. *)
Theorem remove_tags_stops_at_missing_tag
        (self : Document) (pre post : list string) (t : string) :
  NoDup pre ->
  (forall u, In u pre -> In ("K" ++ u) (Xapian.termlist (doc self))) ->
  ~ In ("K" ++ t) (Xapian.termlist (doc self)) \/ In t pre ->
  exists self',
    remove_tags (pre ++ t :: post) self = (Raise InvalidArgumentError, self') /\
    forall x, In x (Xapian.termlist (doc self'))
              <-> In x (Xapian.termlist (doc self))
                  /\ ~ exists u, In u pre /\ x = "K" ++ u.
Proof.
  intros Hnd Hin Ht.
  unfold remove_tags, _remove_tag.
  change (_find_prefix "tag") with (Some "K").
  rewrite for_each_app. unfold bind at 1.
  rewrite (for_each_remove_values "K" pre self Hnd Hin).
  cbn [for_each]. unfold bind at 1.
  rewrite remove_term_absent.
  - eexists. split; [reflexivity|].
    intros x. rewrite termlist_set_terms, In_filter_not_among, in_map_iff.
    split; intros [H1 H2]; (split; [exact H1|]);
      intros [u Hu]; apply H2; exists u; intuition.
  - rewrite termlist_set_terms, In_filter_not_among.
    cbn [format_s]. rewrite In_map_append. tauto.
Qed.

Lemma remove_tags_stops_at_missing_tag_witness :
  exists self',
    remove_tags (["waves"] ++ "optics" :: ["physics"])
                (sample_doc ["Kphysics"; "Kwaves"; "Q1"] 1)
    = (Raise InvalidArgumentError, self') /\
    forall x, In x (Xapian.termlist (doc self'))
              <-> In x ["Kphysics"; "Kwaves"; "Q1"]
                  /\ ~ exists u, In u ["waves"] /\ x = "K" ++ u.
Proof.
  apply (remove_tags_stops_at_missing_tag
           (sample_doc ["Kphysics"; "Kwaves"; "Q1"] 1)
           ["waves"] ["physics"] "optics").
  - repeat constructor. simpl. tauto.
  - simpl. intros u [<- | []]. tauto.
  - left. simpl. intros [H | [H | [H | []]]]; discriminate.
Defined.

(** X9.  Removing distinct tags right after adding them to a document that
    had none of them gives the document back. *)
Theorem add_then_remove_tags (self : Document) (tags : list string) :
  NoDup tags ->
  (forall t, In t tags -> ~ In ("K" ++ t) (Xapian.termlist (doc self))) ->
  (add_tags tags ;; remove_tags tags) self = (Ok tt, self).
Proof.
  intros Hnd Hout.
  unfold add_tags, remove_tags, _add_tag, _remove_tag, bind.
  change (_find_prefix "tag") with (Some "K").
  rewrite for_each_add_terms by discriminate.
  rewrite (for_each_remove_values "K" tags _ Hnd).
  - rewrite set_terms_twice, termlist_set_terms.
    rewrite filter_insert_all_other.
    + rewrite forallb_filter_id; [now rewrite set_terms_same|].
      apply forallb_forall. intros x Hx. apply negb_true_iff.
      apply not_true_is_false. rewrite existsb_eqb_In, in_map_iff.
      intros [t [<- Ht]]. exact (Hout t Ht Hx).
    + intros x Hx. apply negb_false_iff. now apply existsb_eqb_In.
  - intros v Hv. rewrite termlist_set_terms, In_insert_all. left.
    now apply In_map_append.
Qed.

Lemma add_then_remove_tags_witness :
  (add_tags ["waves"; "optics"] ;; remove_tags ["waves"; "optics"])
    (sample_doc ["Kphysics"; "Q1"] 1)
  = (Ok tt, sample_doc ["Kphysics"; "Q1"] 1).
Proof.
  apply (add_then_remove_tags (sample_doc ["Kphysics"; "Q1"] 1)
           ["waves"; "optics"]).
  - repeat constructor; simpl; intuition discriminate.
  - simpl. intros t [<- | [<- | []]] [H | [H | []]]; discriminate.
Defined.

(** ** Sources *)

Lemma get_sources_loop_all (self : Document) (l : list string)
      (acc : list (string * option string)) :
  (forall x, In x l -> truthy x = true) ->
  exists s, get_sources_loop self l acc = Ok s /\
    forall k,
      (In k l -> exists v, get_source_id k self = Ok v /\
                           dict_get k s = Some v) /\
      (~ In k l -> dict_get k s = dict_get k acc).
Proof.
  revert acc; induction l as [|x l IH]; intros acc Ht.
  - exists acc. split; [reflexivity|]. intros k. split; [intros [] | reflexivity].
  - cbn [get_sources_loop]. rewrite (Ht x) by now left. cbn [negb].
    destruct (get_source_id_returns x self) as [v Ev]. rewrite Ev. cbn [res_bind].
    destruct (IH (dict_set x v acc)) as [s [E Hs]];
      [intros y Hy; apply Ht; now right|].
    exists s. split; [exact E|].
    intros k. destruct (Hs k) as [Hin Hout]. split.
    + intros Hk. destruct (in_dec string_dec k l) as [Hl | Hl]; [now apply Hin|].
      destruct Hk as [-> | Hk]; [|contradiction].
      exists v. split; [exact Ev|].
      rewrite (Hout Hl), dict_get_set. now rewrite String.eqb_refl.
    + intros Hk. rewrite Hout by (intros H; apply Hk; now right).
      rewrite dict_get_set.
      destruct (String.eqb_spec x k) as [-> | _]; [|reflexivity].
      elim Hk. now left.
Qed.

Lemma get_sources_characterized (self : Document) :
  ~ In "XSOURCE:" (Xapian.termlist (doc self)) ->
  exists s, get_sources self = Ok s /\
    forall source,
      (In ("XSOURCE:" ++ source) (Xapian.termlist (doc self)) ->
       exists v, get_source_id source self = Ok v /\
                 dict_get source s = Some v) /\
      (~ In ("XSOURCE:" ++ source) (Xapian.termlist (doc self)) ->
       dict_get source s = None).
Proof.
  intros Hempty. unfold get_sources.
  change (_find_prefix "source") with (Some "XSOURCE:").
  rewrite get_terms_under. cbn [res_bind].
  destruct (get_sources_loop_all self
              (map (slice_from (String.length "XSOURCE:"))
                 (filter (String.prefix "XSOURCE:")
                    (Xapian.termlist (doc self)))) []) as [s [E Hs]].
  - intros x Hx. apply In_under in Hx. unfold truthy.
    destruct (String.eqb_spec x "") as [-> | _]; [contradiction | reflexivity].
  - exists s. split; [exact E|]. intros source.
    destruct (Hs source) as [Hin Hout]. rewrite In_under in Hin, Hout.
    split; [exact Hin | exact Hout].
Qed.

(** X10.  On a document without a source of the empty name, [get_sources]
    returns a dict whose keys are the names with a membership term under
    "XSOURCE:", each with what [get_source_id] returns for it. *)
Theorem get_sources_lists_membership_terms (self : Document) :
  ~ In "XSOURCE:" (Xapian.termlist (doc self)) ->
  exists s, get_sources self = Ok s /\
    forall source,
      (In ("XSOURCE:" ++ source) (Xapian.termlist (doc self)) ->
       exists v, get_source_id source self = Ok v /\
                 dict_get source s = Some v) /\
      (~ In ("XSOURCE:" ++ source) (Xapian.termlist (doc self)) ->
       dict_get source s = None).
Proof. exact (get_sources_characterized self). Qed.

Lemma get_sources_lists_membership_terms_witness :
  exists s,
    get_sources (sample_doc ["XARXIV:1207.0580"; "XDOI:10.1000/182";
                             "XSOURCE:arxiv"; "XSOURCE:doi"] 1) = Ok s /\
    dict_get "doi" s = Some (Some "10.1000/182") /\
    dict_get "isbn" s = None.
Proof.
  destruct (get_sources_lists_membership_terms
              (sample_doc ["XARXIV:1207.0580"; "XDOI:10.1000/182";
                           "XSOURCE:arxiv"; "XSOURCE:doi"] 1))
    as [s [E Hs]].
  - simpl. intros [H | [H | [H | [H | []]]]]; discriminate.
  - exists s. split; [exact E|]. split.
    + destruct (proj1 (Hs "doi")) as [v [Ev Hv]]; [simpl; tauto|].
      rewrite Hv. f_equal. injection Ev as <-. reflexivity.
    + apply (proj2 (Hs "isbn")).
      simpl. intros [H | [H | [H | [H | []]]]]; discriminate.
Defined.

Lemma prefix_not_below (p x : string) :
  String.prefix p x = true -> String.compare x p <> Lt.
Proof.
  revert x; induction p as [|a p IH]; intros x H.
  - destruct x; discriminate.
  - destruct x as [|b x]; [discriminate|]. simpl in H.
    destruct (ascii_dec a b) as [<- | _]; [|discriminate].
    simpl. unfold Ascii.compare. rewrite N.compare_refl. now apply IH.
Qed.

Lemma prefix_self (p : string) : String.prefix p p = true.
Proof.
  induction p as [|a p IH]; [reflexivity|]. simpl.
  destruct (ascii_dec a a) as [_ | n]; [exact IH | now elim n].
Qed.

(** In a sorted term list, the prefix itself comes first among the terms
    under it. *)
Lemma prefix_itself_first (p : string) (l : list string) :
  StronglySorted term_lt l -> In p l ->
  exists rest, filter (String.prefix p) l = p :: rest.
Proof.
  induction 1 as [|x r Hr IH Hx]; [intros []|].
  intros Hin. simpl.
  destruct (string_dec x p) as [-> | Hne].
  - rewrite prefix_self. eexists; reflexivity.
  - destruct Hin as [-> | Hin]; [now elim Hne|].
    rewrite Forall_forall in Hx.
    destruct (String.prefix p x) eqn:E; [|now apply IH].
    elim (prefix_not_below p x E). exact (Hx p Hin).
Qed.

(** X11.  The loop of [get_sources] stops at an empty source name, which
    comes first: a document with the bare term "XSOURCE:" has an empty
    dict of sources, whatever other sources it holds. *)
Theorem get_sources_hidden_by_empty_name (self : Document) :
  well_formed self ->
  In "XSOURCE:" (Xapian.termlist (doc self)) ->
  get_sources self = Ok [].
Proof.
  intros Hwf Hin. unfold get_sources.
  change (_find_prefix "source") with (Some "XSOURCE:").
  rewrite get_terms_under.
  destruct (prefix_itself_first "XSOURCE:" _ Hwf Hin) as [rest ->].
  reflexivity.
Qed.

Lemma get_sources_hidden_by_empty_name_witness :
  get_sources (sample_doc ["XDOI:10.1000/182"; "XSOURCE:"; "XSOURCE:doi"] 1)
  = Ok [].
Proof.
  apply (get_sources_hidden_by_empty_name
           (sample_doc ["XDOI:10.1000/182"; "XSOURCE:"; "XSOURCE:doi"] 1)).
  - sorted_terms.
  - simpl. tauto.
Defined.

Lemma append_assoc (a b c : string) : (a ++ b) ++ c = a ++ (b ++ c).
Proof. induction a as [|x a IH]; simpl; [reflexivity | now rewrite IH]. Qed.

Lemma prefix_app_r (p a b : string) :
  String.prefix p a = true -> String.prefix p (a ++ b) = true.
Proof.
  intros H. apply prefix_slice in H. rewrite <- H.
  rewrite append_assoc. apply prefix_app.
Qed.

(** X12.  After [_add_source] on a document that had no id of the source,
    [get_source_id] returns the id that was added and, when the source has
    a name and no source of the document has the empty name, so does the
    entry of the source in [get_sources].  (The membership term must not
    itself lie under the dynamic prefix of the source.) *)
Theorem add_source_then_get (self : Document) (source sid : string) :
  (forall t, In t (Xapian.termlist (doc self)) ->
             String.prefix (_make_source_prefix source) t = false) ->
  String.prefix (_make_source_prefix source) ("XSOURCE:" ++ source) = false ->
  exists self',
    _add_source source sid self = (Ok tt, self') /\
    get_source_id source self' = Ok (Some sid) /\
    (source <> "" -> ~ In "XSOURCE:" (Xapian.termlist (doc self)) ->
     exists s, get_sources self' = Ok s /\
               dict_get source s = Some (Some sid)).
Proof.
  intros Hnone Hfree.
  unfold _add_source, bind.
  change (_find_prefix "source") with (Some "XSOURCE:").
  rewrite add_term_step by discriminate.
  rewrite add_term_step by discriminate.
  rewrite set_terms_twice, termlist_set_terms.
  eexists. split; [reflexivity|].
  assert (Hid : get_source_id source
                  (set_terms self
                     (Xapian.insert_term (_make_source_prefix source ++ sid)
                        (Xapian.insert_term ("XSOURCE:" ++ source)
                           (Xapian.termlist (doc self)))))
                = Ok (Some sid)).
  { unfold get_source_id. rewrite get_terms_under, termlist_set_terms.
    rewrite filter_insert_only.
    - simpl. now rewrite slice_from_app.
    - apply prefix_app.
    - rewrite filter_insert_other by exact Hfree.
      now apply filter_none. }
  split; [exact Hid|].
  intros Hname Hempty.
  destruct (get_sources_characterized
              (set_terms self
                 (Xapian.insert_term (_make_source_prefix source ++ sid)
                    (Xapian.insert_term ("XSOURCE:" ++ source)
                       (Xapian.termlist (doc self))))))
    as [s [E Hs]].
  - rewrite termlist_set_terms, !In_insert_term.
    intros [H | [H | H]]; [| |contradiction].
    + assert (Hp : String.prefix (_make_source_prefix source) "XSOURCE:" = true)
        by (rewrite H; apply prefix_app).
      apply (prefix_app_r _ _ source) in Hp. congruence.
    + destruct source; [now elim Hname | discriminate].
  - exists s. split; [exact E|].
    destruct (proj1 (Hs source)) as [v [Ev Hv]].
    + rewrite termlist_set_terms, !In_insert_term. tauto.
    + rewrite Hv. congruence.
Qed.

Lemma add_source_then_get_witness :
  exists self',
    _add_source "doi" "10.1000/182" (sample_doc ["Kphysics"; "Q1"] 1)
    = (Ok tt, self') /\
    get_source_id "doi" self' = Ok (Some "10.1000/182") /\
    ("doi" <> "" -> ~ In "XSOURCE:" ["Kphysics"; "Q1"] ->
     exists s, get_sources self' = Ok s /\
               dict_get "doi" s = Some (Some "10.1000/182")).
Proof.
  apply (add_source_then_get (sample_doc ["Kphysics"; "Q1"] 1)
           "doi" "10.1000/182").
  - simpl. intros t [<- | [<- | []]]; reflexivity.
  - reflexivity.
Defined.

Lemma upper_ascii_idem (c : ascii) : upper_ascii (upper_ascii c) = upper_ascii c.
Proof. destruct c as [[] [] [] [] [] [] [] []]; reflexivity. Qed.

Lemma upper_idem (s : string) : upper (upper s) = upper s.
Proof.
  induction s as [|c s IH]; simpl; [reflexivity|].
  now rewrite upper_ascii_idem, IH.
Qed.

Lemma append_inj_tail (a b s : string) :
  String.length a = String.length b -> a ++ s = b ++ s -> a = b.
Proof.
  revert b; induction a as [|x a IH]; intros [|y b]; simpl;
    try discriminate; [reflexivity|].
  intros [= Hl] [= -> H]. f_equal. now apply IH.
Qed.

Lemma append_length (a b : string) :
  String.length (a ++ b) = String.length a + String.length b.
Proof. induction a as [|x a IH]; simpl; [reflexivity | now rewrite IH]. Qed.

(** X13.  Two source names have the same dynamic prefix exactly when they
    are equal up to the case of ASCII letters; such names share their ids
    in every document. *)
Theorem source_prefix_ignores_case (a b : string) :
  (_make_source_prefix a = _make_source_prefix b <-> upper a = upper b) /\
  (upper a = upper b ->
   forall self, get_source_id a self = get_source_id b self).
Proof.
  assert (H : _make_source_prefix a = _make_source_prefix b
              <-> upper a = upper b).
  { unfold _make_source_prefix. split.
    - intros E. apply append_inj in E.
      apply (append_inj_tail _ _ ":"); [|exact E].
      apply (f_equal String.length) in E.
      rewrite !append_length in E. simpl in E. lia.
    - now intros ->. }
  split; [exact H|].
  intros E self. unfold get_source_id. now rewrite (proj2 H E).
Qed.

Lemma source_prefix_ignores_case_witness :
  (_make_source_prefix "doi" = _make_source_prefix "DOI"
   <-> upper "doi" = upper "DOI") /\
  forall self, get_source_id "doi" self = get_source_id "DOI" self.
Proof.
  split.
  - apply (proj1 (source_prefix_ignores_case "doi" "DOI")).
  - apply (proj2 (source_prefix_ignores_case "doi" "DOI")). reflexivity.
Defined.

(** ** Syncing a document and finding it again *)

Lemma In_put_document (d y : Xapian.Document) (l : list Xapian.Document) :
  In y (Xapian.put_document d l) -> y = d \/ In y l.
Proof.
  induction l as [|x r IH]; simpl.
  - intuition.
  - destruct (Xapian.docid d ?= Xapian.docid x)%N; simpl; intuition.
Qed.

Lemma put_document_sorted (d : Xapian.Document) (l : list Xapian.Document) :
  StronglySorted (fun a b => (Xapian.docid a < Xapian.docid b)%N) l ->
  StronglySorted (fun a b => (Xapian.docid a < Xapian.docid b)%N)
                 (Xapian.put_document d l).
Proof.
  induction 1 as [|x r Hr IH Hx]; simpl.
  - repeat constructor.
  - destruct (N.compare_spec (Xapian.docid d) (Xapian.docid x)) as [E | E | E].
    + constructor; [exact Hr|]. now rewrite E.
    + constructor; [now constructor|]. constructor; [exact E|].
      eapply Forall_impl; [|exact Hx]. cbv beta. intros y Hy. lia.
    + constructor; [exact IH|]. apply Forall_forall. intros y Hy.
      apply In_put_document in Hy. destruct Hy as [-> | Hy]; [exact E|].
      rewrite Forall_forall in Hx. now apply Hx.
Qed.

Lemma filter_none_docs (f : Xapian.Document -> bool)
      (l : list Xapian.Document) :
  (forall x, In x l -> f x = false) -> filter f l = [].
Proof.
  induction l as [|x r IH]; simpl; intros H; [reflexivity|].
  rewrite (H x) by now left. apply IH. intros y Hy. apply H. now right.
Qed.

(** Putting a document that passes a test into a sorted list in which only
    a document with its id may pass leaves it the only one that passes. *)
Lemma filter_put_document (f : Xapian.Document -> bool) (d : Xapian.Document)
      (l : list Xapian.Document) :
  StronglySorted (fun a b => (Xapian.docid a < Xapian.docid b)%N) l ->
  f d = true ->
  (forall x, In x l -> Xapian.docid x <> Xapian.docid d -> f x = false) ->
  filter f (Xapian.put_document d l) = [d].
Proof.
  intros Hs Hd. induction Hs as [|x r Hr IH Hx]; intros Hl; simpl.
  - now rewrite Hd.
  - rewrite Forall_forall in Hx.
    assert (Hrest : forall y, In y r ->
                      (Xapian.docid d <= Xapian.docid x)%N -> f y = false).
    { intros y Hy Hle. apply Hl; [now right|]. specialize (Hx y Hy). lia. }
    destruct (N.compare_spec (Xapian.docid d) (Xapian.docid x)) as [E | E | E];
      simpl; rewrite ?Hd.
    + f_equal. apply filter_none_docs. intros y Hy. apply Hrest; [exact Hy | lia].
    + rewrite (Hl x) by (auto with datatypes; lia).
      f_equal. apply filter_none_docs. intros y Hy. apply Hrest; [exact Hy | lia].
    + rewrite (Hl x) by (auto with datatypes; lia).
      apply IH. intros y Hy. apply Hl. now right.
Qed.

(** X14.  A document with its own id term "Q<id>" that meets the needs of
    [sync] (a database opened writable, an id in the range of the engine,
    terms the backend can store), synced into a database in which no
    document of another id has that term, is what [doc_for_docid] of its id
    then returns: same id, same terms, same data.  The documents of the
    database stay in the order of their ids. *)
Theorem sync_then_doc_for_docid (db : Database) (self : Document) :
  docs_sorted db ->
  can_sync db self = true ->
  In ("Q" ++ str_of_N (docid self)) (Xapian.termlist (doc self)) ->
  (forall x, In x (Xapian.documents (xapian_db db)) ->
             Xapian.docid x <> docid self ->
             ~ In ("Q" ++ str_of_N (docid self)) (Xapian.termlist x)) ->
  exists db' found,
    sync self db = Ok db' /\
    doc_for_docid db' (str_of_N (docid self)) = Ok (Some found) /\
    get_docid found = docid self /\
    Xapian.termlist (doc found) = Xapian.termlist (doc self) /\
    Xapian.get_data (doc found) = Xapian.get_data (doc self) /\
    docs_sorted db'.
Proof.
  intros Hs Hcan Hq Hothers.
  rewrite (sync_returns self db Hcan).
  set (x := {| Xapian.termlist := Xapian.termlist (doc self);
               Xapian.data := Xapian.data (doc self);
               Xapian.docid := docid self |}).
  set (db' := with_xapian_db db _).
  assert (Hf : filter (Xapian.matches
                         (Xapian.Term ("Q" ++ str_of_N (docid self))))
                 (Xapian.documents (xapian_db db')) = [x]).
  { apply filter_put_document; [exact Hs | now apply has_term_In |].
    intros y Hy Hne. apply not_true_is_false. intros H.
    apply has_term_In in H. exact (Hothers y Hy Hne H). }
  destruct (doc_for_term_first_match db' _ x [] Hf) as [found [E Ef]].
  exists db', found. split; [reflexivity|]. split; [exact E|].
  assert (Hfound : get_docid found = docid self).
  { unfold _doc_for_term, Xapian.get_mset in E. rewrite Hf in E.
    cbn [Xapian.hits skipn firstn] in E.
    destruct (Document_init_wraps db' x) as [p Hp]. rewrite Hp in E.
    cbn [res_bind] in E. injection E as <-. reflexivity. }
  split; [exact Hfound|]. rewrite Ef. split; [reflexivity|].
  split; [reflexivity|]. now apply put_document_sorted.
Qed.

Lemma sync_then_doc_for_docid_witness :
  let db := sample_db [ {| Xapian.termlist := ["Ppaper.pdf"; "Q1"];
                           Xapian.data := ""; Xapian.docid := 1 |} ] 1 in
  let self := sample_doc ["Kphysics"; "Q2"] 2 in
  exists db' found,
    sync self db = Ok db' /\
    doc_for_docid db' (str_of_N (docid self)) = Ok (Some found) /\
    get_docid found = docid self /\
    Xapian.termlist (doc found) = Xapian.termlist (doc self) /\
    Xapian.get_data (doc found) = Xapian.get_data (doc self) /\
    docs_sorted db'.
Proof.
  apply (sync_then_doc_for_docid
           (sample_db [ {| Xapian.termlist := ["Ppaper.pdf"; "Q1"];
                           Xapian.data := ""; Xapian.docid := 1 |} ] 1)
           (sample_doc ["Kphysics"; "Q2"] 2)).
  - unfold docs_sorted; simpl. repeat constructor.
  - reflexivity.
  - simpl. tauto.
  - simpl. intros x [<- | []] _ [H | [H | []]]; discriminate.
Defined.

(** [sync] on a database that was opened with the default [writable=False]
    raises. *)
Lemma sync_needs_writable (db : Database) (self : Document) :
  writable db = false ->
  sync self db = Raise (AttributeError "replace_document").
Proof. unfold sync. now intros ->. Qed.

(** A fresh document meets the conditions on the document above. *)
Lemma fresh_document_has_id_term (db : Database) (d : Document) :
  Document_init db None = Ok d ->
  docid d <> 0%N /\
  In ("Q" ++ str_of_N (docid d)) (Xapian.termlist (doc d)).
Proof.
  rewrite Document_init_fresh. intros [= <-]. simpl. split.
  - apply generate_docid_positive.
  - now left.
Qed.

(** ** Searching *)

Lemma firstn_incl {A} (n : nat) (l : list A) (x : A) :
  In x (firstn n l) -> In x l.
Proof.
  revert l; induction n as [|n IH]; intros [|y l]; simpl; try tauto.
  intros [-> | H]; [now left | right; now apply IH].
Qed.

(** X15.  [_search] of "*" does not consult the query parser and returns
    every document of the database when the limit is not positive, and the
    first [limit] of them when it is.  For every query string, a match set
    that [_search] returns holds documents of the database, at most [limit]
    of them when the limit is positive. *)
Theorem search_star_and_limit (db : Database) (q : string) (limit : Z) :
  (exists mset,
     _search db "*" limit = Ok mset /\
     Xapian.hits mset
     = if (limit >? 0)%Z
       then firstn (Z.to_nat limit) (Xapian.documents (xapian_db db))
       else Xapian.documents (xapian_db db)) /\
  (forall mset,
     _search db q limit = Ok mset ->
     (forall d, In d (Xapian.hits mset) ->
                In d (Xapian.documents (xapian_db db))) /\
     ((0 < limit)%Z -> List.length (Xapian.hits mset) <= Z.to_nat limit)).
Proof.
  assert (Hall : filter (Xapian.matches Xapian.MatchAll)
                   (Xapian.documents (xapian_db db))
                 = Xapian.documents (xapian_db db)).
  { apply forallb_filter_id. apply forallb_forall. reflexivity. }
  split.
  - unfold _search. cbn [String.eqb Ascii.eqb Bool.eqb res_bind].
    change (("*" =? "*")%string) with true. cbn [res_bind].
    destruct (limit >? 0)%Z; eexists; (split; [reflexivity|]);
      unfold Xapian.get_mset; cbn [Xapian.hits skipn]; rewrite Hall.
    + reflexivity.
    + apply firstn_all.
  - intros mset. unfold _search.
    destruct (if (q =? "*")%string then _ else _) as [query|e];
      cbn [res_bind]; [|discriminate].
    destruct (Z.gtb_spec limit 0) as [Hpos | Hneg]; intros [= <-];
      unfold Xapian.get_mset; cbn [Xapian.hits skipn]; split.
    + intros d Hd. apply firstn_incl in Hd. apply filter_In in Hd. tauto.
    + intros _. apply firstn_le_length.
    + intros d Hd. apply firstn_incl in Hd. apply filter_In in Hd. tauto.
    + lia.
Qed.

Lemma search_star_and_limit_witness :
  let mset := Xapian.get_mset (xapian_db twice_indexed)
                (Xapian.Term "Ppaper.pdf") 0 1 in
  _search twice_indexed "Ppaper.pdf" 1 = Ok mset /\
  (forall d, In d (Xapian.hits mset) ->
             In d (Xapian.documents (xapian_db twice_indexed))) /\
  ((0 < 1)%Z -> List.length (Xapian.hits mset) <= Z.to_nat 1).
Proof.
  split; [reflexivity|].
  apply (proj2 (search_star_and_limit twice_indexed "Ppaper.pdf" 1)).
  reflexivity.
Defined.

(** ** The terms of the whole index *)

Lemma In_allterms (x : Xapian.Database) (t : string) :
  In t (Db.allterms x)
  <-> exists d, In d (Xapian.documents x) /\ In t (Xapian.termlist d).
Proof.
  unfold Db.allterms.
  assert (H : forall docs acc,
             In t (fold_left (fun acc d =>
                                fold_left (fun l t => Xapian.insert_term t l)
                                          (Xapian.termlist d) acc) docs acc)
             <-> (exists d, In d docs /\ In t (Xapian.termlist d)) \/ In t acc).
  { induction docs as [|d docs IH]; intros acc; simpl.
    - split; [now right | intros [[d [[] _]] | H]; exact H].
    - rewrite IH, In_insert_all. split.
      + intros [[d' [Hd Ht]] | [Ht | Ht]].
        * left. exists d'. tauto.
        * left. exists d. tauto.
        * now right.
      + intros [[d' [[<- | Hd] Ht]] | Ht].
        * right. now left.
        * left. now exists d'.
        * right. now right. }
  rewrite H. simpl. tauto.
Qed.

Lemma allterms_sorted (x : Xapian.Database) :
  StronglySorted term_lt (Db.allterms x).
Proof.
  unfold Db.allterms.
  assert (H : forall docs acc,
             StronglySorted term_lt acc ->
             StronglySorted term_lt
               (fold_left (fun acc d =>
                             fold_left (fun l t => Xapian.insert_term t l)
                                       (Xapian.termlist d) acc) docs acc)).
  { induction docs as [|d docs IH]; intros acc Hacc; simpl; [exact Hacc|].
    apply IH. now apply sorted_insert_all. }
  apply H. constructor.
Qed.

Lemma NoDup_under (p : string) (l : list string) :
  NoDup l ->
  NoDup (map (slice_from (String.length p)) (filter (String.prefix p) l)).
Proof.
  induction 1 as [|x r Hx Hr IH]; simpl; [constructor|].
  destruct (String.prefix p x) eqn:E; [|exact IH].
  simpl. constructor; [|exact IH].
  rewrite In_under, (prefix_slice p x E). exact Hx.
Qed.

(** X16.  [get_terms] of a recognized field name returns, without
    repetition, the values [v] for which some document of the database has
    the term made of the prefix of the field and [v]. *)
Theorem get_terms_lists_values (db : Database) (name p : string) :
  _find_prefix name = Some p ->
  exists l,
    Db.get_terms db name = Ok l /\
    NoDup l /\
    forall v, In v l
              <-> exists d, In d (Xapian.documents (xapian_db db)) /\
                            In (p ++ v) (Xapian.termlist d).
Proof.
  intros Hp. unfold Db.get_terms, Db._get_terms. rewrite Hp.
  rewrite (filter_ext _ (String.prefix p))
    by (intros t; apply find_zero_prefix).
  eexists. split; [reflexivity|]. split.
  - apply NoDup_under, sorted_NoDup, allterms_sorted.
  - intros v. now rewrite In_under, In_allterms.
Qed.

Lemma get_terms_lists_values_witness :
  exists l,
    Db.get_terms twice_indexed "file" = Ok l /\
    NoDup l /\
    forall v, In v l
              <-> exists d, In d (Xapian.documents (xapian_db twice_indexed))
                            /\ In ("P" ++ v) (Xapian.termlist d).
Proof.
  apply (get_terms_lists_values twice_indexed "file" "P"). reflexivity.
Defined.

(** X17.  [get_terms] of a name that is in none of the prefix tables looks
    for [None] in the terms: it raises [TypeError] as soon as a document of
    the database has a term, and returns the empty list when none has. *)
Theorem get_terms_unknown_name (db : Database) (name : string) :
  ~ recognized name ->
  ((forall d, In d (Xapian.documents (xapian_db db)) ->
              Xapian.termlist d = []) ->
   Db.get_terms db name = Ok []) /\
  ((exists d t, In d (Xapian.documents (xapian_db db)) /\
                In t (Xapian.termlist d)) ->
   Db.get_terms db name = Raise TypeError).
Proof.
  intros Hn. unfold Db.get_terms, Db._get_terms.
  rewrite (find_prefix_unknown name Hn). split.
  - intros Hnone.
    destruct (Db.allterms (xapian_db db)) as [|t l] eqn:E; [reflexivity|].
    assert (Ht : In t (Db.allterms (xapian_db db))) by (rewrite E; now left).
    apply In_allterms in Ht. destruct Ht as [d [Hd Ht]].
    rewrite (Hnone d Hd) in Ht. destruct Ht.
  - intros [d [t [Hd Ht]]].
    destruct (Db.allterms (xapian_db db)) as [|t' l] eqn:E; [|reflexivity].
    assert (H : In t (Db.allterms (xapian_db db)))
      by (apply In_allterms; now exists d).
    rewrite E in H. destruct H.
Qed.

Lemma get_terms_unknown_name_witness :
  Db.get_terms (sample_db [] 0) "keyword" = Ok [] /\
  Db.get_terms twice_indexed "keyword" = Raise TypeError.
Proof.
  assert (Hn : ~ recognized "keyword").
  { unfold recognized; simpl. intuition discriminate. }
  split.
  - apply (proj1 (get_terms_unknown_name (sample_db [] 0) "keyword" Hn)).
    simpl. intros d [].
  - apply (proj2 (get_terms_unknown_name twice_indexed "keyword" Hn)).
    unfold twice_indexed, sample_db. simpl.
    eexists; eexists. split; [left; reflexivity|]. simpl. left; reflexivity.
Defined.

(** ** Deleting and adding through the database *)

(** X18.  [delete_document] never deletes and never asks: the prompt it
    builds has no place for the id it is formatted with, so the call raises
    [TypeError] whatever the id and whatever would be typed. *)
Theorem delete_document_raises_TypeError
        (db : Database) (docid : N) (resp : string) :
  delete_document db docid resp = Raises TypeError.
Proof. reflexivity. Qed.

Lemma for_each_add_source_returns (sources : list (string * string))
      (d : Document) :
  exists d', for_each sources
               (fun item => _add_source (fst item) (snd item)) d = (Ok tt, d').
Proof.
  revert d; induction sources as [|[source sid] sources IH]; intros d.
  - now exists d.
  - cbn [for_each fst snd]. unfold bind at 1, _add_source, bind.
    change (_find_prefix "source") with (Some "XSOURCE:").
    rewrite add_term_step by discriminate.
    rewrite add_term_step by discriminate.
    apply IH.
Qed.

Lemma for_each_add_tag_returns (tags : list string) (d : Document) :
  exists d', for_each tags (fun tag => _add_tag tag) d = (Ok tt, d').
Proof.
  unfold _add_tag. change (_find_prefix "tag") with (Some "K").
  rewrite for_each_add_terms by discriminate. eexists; reflexivity.
Qed.

Lemma add_document_fields_raises (data : option metadata) (d : Document) :
  exists e, add_document_fields data d = Raises e.
Proof.
  unfold add_document_fields.
  destruct data as [data|]; [|eexists; reflexivity].
  destruct (md_url data); [eexists; reflexivity|].
  destruct (match md_sources data with Some _ => _ | None => _ end)
    as [[u|e] d1]; [|eexists; reflexivity].
  destruct (md_title data); [eexists; reflexivity|].
  destruct (md_authors data); [eexists; reflexivity|].
  destruct (md_year data); [eexists; reflexivity|].
  destruct (match md_tags data with Some _ => _ | None => _ end)
    as [[u'|e] d2]; eexists; reflexivity.
Qed.

(** With sources and tags only, the call of [doc._sync] is reached. *)
Lemma add_document_fields_reach_sync (data : metadata) (d : Document) :
  md_url data = None -> md_title data = None ->
  md_authors data = None -> md_year data = None ->
  add_document_fields (Some data) d = Raises (AttributeError "_sync").
Proof.
  intros Hu Ht Ha Hy. unfold add_document_fields. rewrite Hu, Ht, Ha, Hy.
  destruct (md_sources data) as [sources|].
  - destruct (for_each_add_source_returns sources d) as [d1 ->].
    destruct (md_tags data) as [tags|]; [|reflexivity].
    now destruct (for_each_add_tag_returns tags d1) as [d2 ->].
  - destruct (md_tags data) as [tags|]; [|reflexivity].
    now destruct (for_each_add_tag_returns tags d) as [d2 ->].
Qed.

(** X19.  [add_document] never returns.  When the path is indexed already
    it exits with status 1.  Otherwise it raises: at the latest where it
    calls [doc._sync], a method [Document] does not have, which is where
    it raises for an empty path and metadata without url, title, authors
    and year.  No path and no metadata reach the database through it. *)
Theorem add_document_never_returns
        (parse_file : string -> res string) (db : Database)
        (path : option string) (data : option metadata) :
  (forall a, add_document parse_file db path data <> Returns a) /\
  (forall p found,
     path = Some p -> doc_for_path db p = Ok (Some found) ->
     add_document parse_file db path data = Exits 1) /\
  ((forall p found,
      path = Some p -> doc_for_path db p <> Ok (Some found)) ->
   exists e, add_document parse_file db path data = Raises e) /\
  (forall md,
     path = Some "" -> doc_for_path db "" = Ok None -> data = Some md ->
     md_url md = None -> md_title md = None ->
     md_authors md = None -> md_year md = None ->
     add_document parse_file db path data = Raises (AttributeError "_sync")).
Proof.
  unfold add_document. split; [|split; [|split]].
  - intros a. destruct path as [p|]; [|discriminate].
    destruct (doc_for_path db p) as [[found|]|e]; try discriminate.
    rewrite Document_init_fresh. destruct (truthy p).
    + destruct (_index_file parse_file db p _) as [[s|e] st];
        [|discriminate].
      destruct (add_document_fields_raises data (fst st)) as [e ->].
      discriminate.
    + destruct (add_document_fields_raises data
                  {| doc := {| Xapian.termlist :=
                                 ["Q" ++ str_of_N (_generate_docid db)];
                               Xapian.data := ""; Xapian.docid := 0 |};
                     docid := _generate_docid db; path := None |})
        as [e ->].
      discriminate.
  - intros p found -> E. now rewrite E.
  - intros Hnot. destruct path as [p|]; [|eexists; reflexivity].
    destruct (doc_for_path db p) as [[found|]|e] eqn:E.
    + elim (Hnot p found eq_refl E).
    + rewrite Document_init_fresh. destruct (truthy p).
      * destruct (_index_file parse_file db p _) as [[s|e] st];
          [apply add_document_fields_raises | eexists; reflexivity].
      * apply add_document_fields_raises.
    + eexists; reflexivity.
  - intros md -> E -> Hu Ht Ha Hy. rewrite E, Document_init_fresh.
    cbn [truthy String.eqb negb].
    now apply add_document_fields_reach_sync.
Qed.

Lemma add_document_never_returns_witness :
  add_document (fun _ => Ok "text") indexed_once (Some "paper.pdf") None
  = Exits 1 /\
  (exists e,
     add_document (fun _ => Ok "text") (sample_db [] 0) (Some "doe/2012.pdf")
       (Some {| md_url := Some "http://a"; md_sources := None;
                md_title := None; md_authors := None; md_year := None;
                md_tags := None |})
     = Raises e) /\
  add_document (fun _ => Ok "text") (sample_db [] 0) (Some "")
    (Some {| md_url := None; md_sources := Some [("doi", "10.1000/182")];
             md_title := None; md_authors := None; md_year := None;
             md_tags := Some ["physics"] |})
  = Raises (AttributeError "_sync").
Proof.
  split; [|split].
  - apply (proj1 (proj2 (add_document_never_returns (fun _ => Ok "text")
                           indexed_once (Some "paper.pdf") None))
             "paper.pdf"
             {| doc := {| Xapian.termlist := ["Ppaper.pdf"; "Q1"];
                          Xapian.data := ""; Xapian.docid := 1 |};
                docid := 1; path := Some ["paper.pdf"] |});
      reflexivity.
  - apply (proj1 (proj2 (proj2 (add_document_never_returns
                                  (fun _ => Ok "text") (sample_db [] 0)
                                  (Some "doe/2012.pdf") _)))).
    intros p found [= <-]. discriminate.
  - apply (proj2 (proj2 (proj2 (add_document_never_returns
                                  (fun _ => Ok "text") (sample_db [] 0)
                                  (Some "") _)))
             {| md_url := None; md_sources := Some [("doi", "10.1000/182")];
                md_title := None; md_authors := None; md_year := None;
                md_tags := Some ["physics"] |});
      reflexivity.
Defined.

(** ** Paths *)

(** X20.  [add_path] unpacks the one string [_basename_for_path] returns
    into two names: it raises [TypeError] for a path outside the root and
    [ValueError] for a resolved path that does not have exactly two
    characters, leaving the document alone; for a resolved path of two
    characters it files the first of them. *)
Theorem add_path_files_one_character
        (db : Database) (path : string) (self : Document) :
  (_basename_for_path db path = None ->
   add_path db path self = (Raise TypeError, self)) /\
  (forall base, _basename_for_path db path = Some base ->
                String.length base <> 2 ->
                add_path db path self = (Raise ValueError, self)) /\
  (forall a b, _basename_for_path db path
               = Some (String a (String b EmptyString)) ->
               add_path db path self
               = (Ok tt, set_terms self
                           (Xapian.insert_term
                              (String "P" (String a EmptyString))
                              (Xapian.termlist (doc self))))).
Proof.
  unfold add_path, bind, try. repeat split.
  - intros ->. reflexivity.
  - intros base -> Hl. now rewrite (unpack2_not_two base Hl).
  - intros a b ->. cbn [unpack2].
    change (_find_prefix "file") with (Some "P").
    now rewrite add_term_step by discriminate.
Qed.

Lemma add_path_files_one_character_witness :
  add_path (sample_db [] 0) "/tmp/2012.pdf" (sample_doc ["Q1"] 1)
  = (Raise TypeError, sample_doc ["Q1"] 1) /\
  add_path (sample_db [] 0) "doe/2012.pdf" (sample_doc ["Q1"] 1)
  = (Raise ValueError, sample_doc ["Q1"] 1) /\
  add_path (sample_db [] 0) "ab" (sample_doc ["Q1"] 1)
  = (Ok tt, set_terms (sample_doc ["Q1"] 1)
              (Xapian.insert_term "Pa" ["Q1"])).
Proof.
  split; [|split].
  - apply (proj1 (add_path_files_one_character (sample_db [] 0)
                    "/tmp/2012.pdf" (sample_doc ["Q1"] 1))).
    reflexivity.
  - apply (proj1 (proj2 (add_path_files_one_character (sample_db [] 0)
                           "doe/2012.pdf" (sample_doc ["Q1"] 1)))
             "doe/2012.pdf"); [reflexivity | discriminate].
  - apply (proj2 (proj2 (add_path_files_one_character (sample_db [] 0)
                           "ab" (sample_doc ["Q1"] 1)))
             "a"%char "b"%char).
    reflexivity.
Defined.

Lemma lstrip_not_prefixed (c : ascii) (s : string) :
  String.prefix (String c EmptyString) (lstrip c s) = false.
Proof.
  induction s as [|a s IH]; [reflexivity|]. simpl.
  destruct (Ascii.eqb_spec a c) as [-> | Hne]; [exact IH|].
  apply prefix_head. congruence.
Qed.

Lemma basename_of_lstrip (db : Database) (p : string) :
  _basename_for_path db (lstrip "/"%char p) = Some (lstrip "/"%char p).
Proof.
  unfold _basename_for_path. rewrite find_zero_prefix.
  now rewrite (lstrip_not_prefixed "/"%char p).
Qed.

Lemma get_fullpaths_loop_raises (db : Database) (paths acc : list string) :
  (exists p, In p paths /\ String.length (lstrip "/"%char p) <> 2) ->
  get_fullpaths_loop db paths acc = Raise ValueError.
Proof.
  revert acc; induction paths as [|x paths IH]; intros acc [p [Hin Hl]].
  - destruct Hin.
  - cbn [get_fullpaths_loop]. rewrite basename_of_lstrip.
    destruct (Nat.eq_dec (String.length (lstrip "/"%char x)) 2) as [E | E].
    + assert (Hrest : exists q, In q paths /\
                                String.length (lstrip "/"%char q) <> 2).
      { destruct Hin as [-> | Hin]; [contradiction | now exists p]. }
      destruct (lstrip "/"%char x) as [|a [|b [|c s]]]; try discriminate.
      cbn [unpack2 res_bind]. now apply IH.
    + now rewrite (unpack2_not_two _ E).
Qed.

(** X21.  [get_fullpaths] returns the empty list for a document without
    paths, and raises [ValueError] as soon as one path of the document,
    without its leading slashes, does not have exactly two characters. *)
Theorem get_fullpaths_needs_two_characters
        (db : Database) (self : Document) (paths : list string) :
  get_paths self = Ok paths ->
  (paths = [] -> get_fullpaths db self = Ok []) /\
  ((exists p, In p paths /\ String.length (lstrip "/"%char p) <> 2) ->
   get_fullpaths db self = Raise ValueError).
Proof.
  intros Hp. unfold get_fullpaths. rewrite Hp. cbn [res_bind]. split.
  - intros ->. reflexivity.
  - apply get_fullpaths_loop_raises.
Qed.

Lemma get_fullpaths_needs_two_characters_witness :
  get_fullpaths (sample_db [] 0) (sample_doc ["Kphysics"; "Q1"] 1) = Ok [] /\
  get_fullpaths (sample_db [] 0) (sample_doc ["P/doe/2012.pdf"; "Q1"] 1)
  = Raise ValueError.
Proof.
  split.
  - apply (proj1 (get_fullpaths_needs_two_characters (sample_db [] 0)
                    (sample_doc ["Kphysics"; "Q1"] 1) [] eq_refl)).
    reflexivity.
  - apply (proj2 (get_fullpaths_needs_two_characters (sample_db [] 0)
                    (sample_doc ["P/doe/2012.pdf"; "Q1"] 1)
                    ["/doe/2012.pdf"] eq_refl)).
    exists "/doe/2012.pdf". split; [now left | discriminate].
Defined.

(** ** More on sources *)

Lemma add_source_step (source sid : string) (self : Document) :
  _add_source source sid self
  = (Ok tt, set_terms self
              (Xapian.insert_term (_make_source_prefix source ++ sid)
                 (Xapian.insert_term ("XSOURCE:" ++ source)
                    (Xapian.termlist (doc self))))).
Proof.
  unfold _add_source, bind.
  change (_find_prefix "source") with (Some "XSOURCE:").
  rewrite add_term_step by discriminate.
  now rewrite add_term_step by discriminate.
Qed.

(** X22.  [add_sources] returns; afterwards the document has its old terms
    and, for every item of the dict, the membership term of the source and
    the id under the dynamic prefix of the source. *)
Theorem add_sources_adds_both_halves
        (sources : list (string * string)) (self : Document) :
  exists self',
    add_sources sources self = (Ok tt, self') /\
    forall x, In x (Xapian.termlist (doc self'))
              <-> In x (Xapian.termlist (doc self))
                  \/ exists source sid,
                       In (source, sid) sources /\
                       (x = "XSOURCE:" ++ source
                        \/ x = _make_source_prefix source ++ sid).
Proof.
  unfold add_sources.
  revert self; induction sources as [|[source sid] sources IH]; intros self.
  - exists self. split; [reflexivity|].
    intros x. split; [now left | intros [H | [s [i [[] _]]]]; exact H].
  - cbn [for_each fst snd]. unfold bind at 1. rewrite add_source_step.
    destruct (IH (set_terms self
                    (Xapian.insert_term (_make_source_prefix source ++ sid)
                       (Xapian.insert_term ("XSOURCE:" ++ source)
                          (Xapian.termlist (doc self))))))
      as [self' [E H]].
    exists self'. split; [exact E|].
    intros x. rewrite H, termlist_set_terms, !In_insert_term. split.
    + intros [[-> | [-> | Hx]] | [s [i [Hin Hx]]]].
      * right. exists source, sid. split; [now left | now right].
      * right. exists source, sid. split; [now left | now left].
      * now left.
      * right. exists s, i. split; [now right | exact Hx].
    + intros [Hx | [s [i [[[= <- <-] | Hin] Hx]]]].
      * left. tauto.
      * left. tauto.
      * right. exists s, i. tauto.
Qed.

(** X23.  [remove_source] undoes [_add_source]: on a document whose terms
    are as the engine keeps them, which has neither the membership term of
    the source nor a term under its dynamic prefix, adding the source and
    removing it gives the document back.  (The membership term must not
    itself lie under the dynamic prefix of the source.) *)
Theorem add_then_remove_source (self : Document) (source sid : string) :
  well_formed self ->
  ~ In ("XSOURCE:" ++ source) (Xapian.termlist (doc self)) ->
  (forall t, In t (Xapian.termlist (doc self)) ->
             String.prefix (_make_source_prefix source) t = false) ->
  String.prefix (_make_source_prefix source) ("XSOURCE:" ++ source) = false ->
  (_add_source source sid ;; remove_source source) self = (Ok tt, self).
Proof.
  intros Hwf Hm Hnone Hfree.
  unfold bind at 1. rewrite add_source_step.
  unfold remove_source.
  rewrite remove_under_then
    by (rewrite termlist_set_terms;
        now apply sorted_NoDup, sorted_insert_term, sorted_insert_term).
  rewrite set_terms_twice, termlist_set_terms.
  rewrite filter_insert_other by (now rewrite prefix_app).
  change (_find_prefix "source") with (Some "XSOURCE:").
  rewrite remove_term_present.
  - rewrite set_terms_twice, termlist_set_terms. cbn [format_s].
    rewrite filter_filter_and.
    rewrite filter_insert_other
      by (rewrite String.eqb_refl; apply andb_false_r).
    rewrite forallb_filter_id; [now rewrite set_terms_same|].
    apply forallb_forall. intros x Hx. rewrite (Hnone x Hx). cbn [negb andb].
    apply negb_true_iff, String.eqb_neq. intros ->. contradiction.
  - rewrite termlist_set_terms. cbn [format_s]. apply filter_In. split.
    + apply In_insert_term. now left.
    + now rewrite Hfree.
Qed.

Lemma add_then_remove_source_witness :
  (_add_source "doi" "10.1000/182" ;; remove_source "doi")
    (sample_doc ["Kphysics"; "Q1"; "XSOURCE:arxiv"] 1)
  = (Ok tt, sample_doc ["Kphysics"; "Q1"; "XSOURCE:arxiv"] 1).
Proof.
  apply (add_then_remove_source
           (sample_doc ["Kphysics"; "Q1"; "XSOURCE:arxiv"] 1)
           "doi" "10.1000/182").
  - sorted_terms.
  - simpl. intros [H | [H | [H | []]]]; discriminate.
  - simpl. intros t [<- | [<- | [<- | []]]]; reflexivity.
  - reflexivity.
Defined.

(** X24.  [remove_source] of a source the document does not list raises
    [InvalidArgumentError], but only after it has taken away every term
    under the dynamic prefix of the source. *)
Theorem remove_source_not_listed (self : Document) (source : string) :
  well_formed self ->
  ~ In ("XSOURCE:" ++ source) (Xapian.termlist (doc self)) ->
  remove_source source self
  = (Raise InvalidArgumentError,
     set_terms self
       (filter (fun t => negb (String.prefix (_make_source_prefix source) t))
               (Xapian.termlist (doc self)))).
Proof.
  intros Hwf Hm. unfold remove_source.
  rewrite remove_under_then by now apply sorted_NoDup.
  apply remove_term_absent.
  rewrite termlist_set_terms. intros H. apply filter_In in H. tauto.
Qed.

Lemma remove_source_not_listed_witness :
  remove_source "doi" (sample_doc ["Kphysics"; "Q1"; "XDOI:10.1000/182"] 1)
  = (Raise InvalidArgumentError,
     set_terms (sample_doc ["Kphysics"; "Q1"; "XDOI:10.1000/182"] 1)
       (filter (fun t => negb (String.prefix (_make_source_prefix "doi") t))
               ["Kphysics"; "Q1"; "XDOI:10.1000/182"])).
Proof.
  apply (remove_source_not_listed
           (sample_doc ["Kphysics"; "Q1"; "XDOI:10.1000/182"] 1) "doi").
  - sorted_terms.
  - simpl. intros [H | [H | [H | []]]]; discriminate.
Defined.
